(** * startpageapi: a shallow embedding of the request builder, the transport,
    the facade and the dispatching part of the extractor.

    Python values are embedded as follows.
    - [str] is [string]; every character stands for one code point below 256.
    - [int] is [Z] (Python integers are unbounded).
    - [float] is [PrimFloat.float], the binary64 numbers with their rounding.
    - a value of static type [Any] or [Optional[...]] is a [pyval].
    - a [dict] with string keys is an association list in insertion order
      with pairwise distinct keys ([Dict.set] keeps that shape).
    - a raising function returns a [result]; functions that touch the client
      object or the network run in the state monad [M]. *)

From Stdlib Require Import String Ascii List ZArith Bool Lia DecimalString.
From Stdlib Require PrimFloat.
Import ListNotations.
Open Scope string_scope.
Open Scope Z_scope.

Set Implicit Arguments.

(* ------------------------------------------------------------------ *)
(** ** Strings *)

Module Str.

(** [str.isspace] on the code points below 256. *)
Definition is_space (c : ascii) : bool :=
  let n := N_of_ascii c in
  (((9 <=? n) && (n <=? 13)) || ((28 <=? n) && (n <=? 32))
   || (n =? 133) || (n =? 160))%N.

Fixpoint lstrip (s : string) : string :=
  match s with
  | EmptyString => EmptyString
  | String c r => if is_space c then lstrip r else s
  end.

Fixpoint rstrip (s : string) : string :=
  match s with
  | EmptyString => EmptyString
  | String c r =>
      match rstrip r with
      | EmptyString => if is_space c then EmptyString else String c EmptyString
      | r' => String c r'
      end
  end.

(** [s.strip()] *)
Definition strip (s : string) : string := rstrip (lstrip s).

(** [s.startswith(p)] *)
Fixpoint startswith (s p : string) {struct p} : bool :=
  match p with
  | EmptyString => true
  | String a p' =>
      match s with
      | EmptyString => false
      | String b s' => (a =? b)%char && startswith s' p'
      end
  end.

(** [s.endswith(p)] *)
Fixpoint endswith (s p : string) : bool :=
  (s =? p)%string
  || match s with
     | EmptyString => false
     | String _ r => endswith r p
     end.

(** [needle in hay] *)
Fixpoint contains (needle hay : string) : bool :=
  startswith hay needle
  || match hay with
     | EmptyString => false
     | String _ r => contains needle r
     end.

(** [s[1:]] *)
Definition drop1 (s : string) : string :=
  match s with
  | EmptyString => EmptyString
  | String _ r => r
  end.

(** [not s] for a string *)
Definition is_empty (s : string) : bool :=
  match s with
  | EmptyString => true
  | String _ _ => false
  end.

(** [str(n)] for an integer *)
Definition of_int (n : Z) : string := NilZero.string_of_int (Z.to_int n).

(** [text.replace("\xa0", " ")] *)
Fixpoint replace_nbsp (s : string) : string :=
  match s with
  | EmptyString => EmptyString
  | String c r =>
      String (if (N_of_ascii c =? 160)%N then " "%char else c) (replace_nbsp r)
  end.

(** [re.sub(r"\s+", " ", text)]: every maximal run of whitespace becomes one
    space. *)
Fixpoint collapse_ws (s : string) : string :=
  match s with
  | EmptyString => EmptyString
  | String c r =>
      if is_space c then
        match r with
        | String d _ => if is_space d then collapse_ws r
                        else String " "%char (collapse_ws r)
        | EmptyString => String " "%char EmptyString
        end
      else String c (collapse_ws r)
  end.

End Str.

(** What [lstrip] leaves is empty or begins with a character that is not
    whitespace. *)
Definition clean_head (s : string) : Prop :=
  match s with
  | EmptyString => True
  | String c _ => Str.is_space c = false
  end.

(** A string that is already trimmed. *)
Definition trimmed (s : string) : Prop := Str.strip s = s.

(** All whitespace in [s] is single plain spaces: a whitespace character is
    a space, and what follows it is not whitespace. *)
Fixpoint single_spaced (s : string) : Prop :=
  match s with
  | EmptyString => True
  | String c r =>
      (Str.is_space c = true -> c = " "%char /\ clean_head r)
      /\ single_spaced r
  end.

(* ------------------------------------------------------------------ *)
(** ** Dynamically typed values *)

(** A Python float is carried by its [repr], which is what [str()] and
    f-strings print for it. *)
Inductive pyval : Type :=
| PNone
| PBool (b : bool)
| PInt (n : Z)
| PFloat (repr : string)
| PStr (s : string).

(** Truth value of [v] in a condition. *)
Definition py_truthy (v : pyval) : bool :=
  match v with
  | PNone => false
  | PBool b => b
  | PInt n => negb (n =? 0)
  | PFloat r => negb ((r =? "0.0")%string || (r =? "-0.0")%string)
  | PStr s => negb (Str.is_empty s)
  end.

(** [v is not None] *)
Definition py_is_not_none (v : pyval) : bool :=
  match v with
  | PNone => false
  | _ => true
  end.

(** [v == s] for a string literal [s]: only a [str] equals a [str]. *)
Definition py_eq_str (v : pyval) (s : string) : bool :=
  match v with
  | PStr t => (t =? s)%string
  | _ => false
  end.

(** [v in [s1, ..., sn]] for string literals *)
Definition py_in_strs (v : pyval) (l : list string) : bool :=
  existsb (py_eq_str v) l.

(** [str(v)] *)
Definition py_str (v : pyval) : string :=
  match v with
  | PNone => "None"
  | PBool true => "True"
  | PBool false => "False"
  | PInt n => Str.of_int n
  | PFloat r => r
  | PStr s => s
  end.

(* ------------------------------------------------------------------ *)
(** ** Dictionaries with string keys *)

Module Dict.

Definition t (V : Type) : Type := list (string * V).

Section Ops.
Variable V : Type.

(** [d.get(k)] *)
Fixpoint get (k : string) (d : t V) : option V :=
  match d with
  | [] => None
  | (k', v) :: r => if (k' =? k)%string then Some v else get k r
  end.

(** [k in d] *)
Definition mem (k : string) (d : t V) : bool :=
  match get k d with
  | Some _ => true
  | None => false
  end.

(** [d[k] = v]: an existing key keeps its position. *)
Fixpoint set (k : string) (v : V) (d : t V) : t V :=
  match d with
  | [] => [(k, v)]
  | (k', v') :: r =>
      if (k' =? k)%string then (k, v) :: r else (k', v') :: set k v r
  end.

(** [if cond: d[k] = v] *)
Definition set_if (cond : bool) (k : string) (v : V) (d : t V) : t V :=
  if cond then set k v d else d.

(** [d.update(e)] *)
Definition update (d e : t V) : t V :=
  fold_left (fun acc kv => set (fst kv) (snd kv) acc) e d.

(** [d.pop(k)]: the dictionary that is left. *)
Fixpoint remove (k : string) (d : t V) : t V :=
  match d with
  | [] => []
  | (k', v) :: r =>
      if (k' =? k)%string then remove k r else (k', v) :: remove k r
  end.

(** [d.get(k, dflt)] *)
Definition get_default (k : string) (dflt : V) (d : t V) : V :=
  match get k d with
  | Some v => v
  | None => dflt
  end.

(** The keys of a dictionary are pairwise distinct. *)
Definition wf (d : t V) : Prop := NoDup (map fst d).

End Ops.

End Dict.

(** [TABLE.get(key, dflt)] for a table of strings and a key of any type: a key
    that is not a [str] is in no table. *)
Definition table_get (tbl : Dict.t string) (key dflt : pyval) : pyval :=
  match key with
  | PStr s =>
      match Dict.get s tbl with
      | Some v => PStr v
      | None => dflt
      end
  | _ => dflt
  end.

(* ------------------------------------------------------------------ *)
(** ** endpoints.py *)

Definition BASE_URL : string := "https://www.startpage.com".
Definition SEARCH_URL : string := BASE_URL ++ "/sp/search".
Definition SUGGESTIONS_URL : string := BASE_URL ++ "/suggestions".

Definition DEFAULT_HEADERS : Dict.t string :=
  [ ("User-Agent",
     "Mozilla/5.0 (Windows NT 10.0; Win64; x64) "
     ++ "AppleWebKit/537.36 (KHTML, like Gecko) "
     ++ "Chrome/120.0.0.0 Safari/537.36");
    ("Accept",
     "text/html,application/xhtml+xml,application/xml;q=0.9,"
     ++ "image/webp,*/*;q=0.8");
    ("Accept-Language", "en-US,en;q=0.5");
    ("Accept-Encoding", "gzip, deflate, br");
    ("DNT", "1");
    ("Connection", "keep-alive");
    ("Upgrade-Insecure-Requests", "1");
    ("Sec-Fetch-Dest", "document");
    ("Sec-Fetch-Mode", "navigate");
    ("Sec-Fetch-Site", "none");
    ("Cache-Control", "max-age=0") ].

Definition SEARCH_CATEGORIES : Dict.t string :=
  [ ("web", "web"); ("images", "pics"); ("videos", "video");
    ("news", "news"); ("places", "map") ].

Definition LANGUAGE_CODES : Dict.t string :=
  [ ("english", "en"); ("german", "de"); ("french", "fr"); ("spanish", "es");
    ("italian", "it"); ("dutch", "nl"); ("portuguese", "pt");
    ("russian", "ru"); ("chinese", "zh"); ("japanese", "ja") ].

Definition REGION_CODES : Dict.t string :=
  [ ("all", "all"); ("us", "us"); ("uk", "uk"); ("ca", "ca"); ("au", "au");
    ("de", "de"); ("fr", "fr"); ("es", "es"); ("it", "it"); ("nl", "nl") ].

Definition SAFE_SEARCH_LEVELS : Dict.t string :=
  [ ("strict", "1"); ("moderate", "0"); ("off", "2") ].

Definition TIME_FILTERS : Dict.t string :=
  [ ("any", ""); ("day", "d"); ("week", "w"); ("month", "m"); ("year", "y") ].

Definition IMAGE_SIZES : Dict.t string :=
  [ ("any", ""); ("small", "s"); ("medium", "m"); ("large", "l");
    ("wallpaper", "w") ].

Definition VIDEO_DURATIONS : Dict.t string :=
  [ ("any", ""); ("short", "s"); ("medium", "m"); ("long", "l") ].

Definition ADVANCED_SEARCH_PARAMS : Dict.t string :=
  [ ("search_source", "sc"); ("search_results", "sr");
    ("search_expander_api_path", "sxap");
    ("query_instant_mode_search_number", "qimsn");
    ("time_filter", "with_date"); ("ad_block_plus", "abp");
    ("search_type_modifier", "t") ].

(* ------------------------------------------------------------------ *)
(** ** Exceptions and results *)

(** Modelled from the spec: the module [exceptions] (the classes
    [StartpageError], [StartpageHTTPError], [StartpageRateLimitError] and
    [StartpageParseError]) is not part of the sources. Each class is one error
    kind of the taxonomy; a constructor carries what the raising sites in
    client.py and parser.py pass to it. [PyException cls msg] is any other
    exception, by class name. *)
Inductive exn : Type :=
| ValueError (msg : string)
| TypeError (msg : string)
| StartpageError (msg : string)
| StartpageHTTPError (code : Z) (msg : string)
| StartpageRateLimitError (msg : string)
| StartpageParseError (msg : string)
| PyException (cls msg : string).

(** [type(e).__name__] *)
Definition exn_type_name (e : exn) : string :=
  match e with
  | ValueError _ => "ValueError"
  | TypeError _ => "TypeError"
  | StartpageError _ => "StartpageError"
  | StartpageHTTPError _ _ => "StartpageHTTPError"
  | StartpageRateLimitError _ => "StartpageRateLimitError"
  | StartpageParseError _ => "StartpageParseError"
  | PyException cls _ => cls
  end.

(** [str(e)] *)
Definition exn_str (e : exn) : string :=
  match e with
  | ValueError m | TypeError m | StartpageError m | StartpageHTTPError _ m
  | StartpageRateLimitError m | StartpageParseError m | PyException _ m => m
  end.

(** The errors the client raises itself: those of the [exceptions] module
    and the two built-in ones for a bad call. Any other exception comes out
    of a library. *)
Definition raised_by_client (e : exn) : Prop :=
  match e with
  | PyException _ _ => False
  | _ => True
  end.

Inductive result (A : Type) : Type :=
| Ok (a : A)
| Raise (e : exn).

Arguments Ok {A} a.
Arguments Raise {A} e.

(* ------------------------------------------------------------------ *)
(** ** parser.py: URL normalisation *)

Definition _STARTPAGE_BASE_URL : string := "https://www.startpage.com".

(** [StartpageParser._normalize_url(url, base_url)]; [None] is a missing
    [url]. *)
Definition _normalize_url (url : option string) (base_url : string) : string :=
  match url with
  | None => ""
  | Some url =>
      if Str.is_empty url then ""
      else
        let url := Str.strip url in
        if Str.startswith url "//" then "https:" ++ url
        else if Str.startswith url "/" then
          if Str.endswith base_url "/" && Str.startswith url "/"
          then base_url ++ Str.drop1 url
          else base_url ++ url
        else url
  end.

(* ------------------------------------------------------------------ *)
(** ** client.py: the request builder *)

(** [StartpageAPI._build_search_params]. [kwargs] is the [**kwargs]
    dictionary: Python binds a keyword that names one of the parameters to
    that parameter, so no such key reaches [kwargs]. Every statement
    [if cond: params[k] = v] is one [Dict.set_if]; the two assignments under
    the condition on the position share it. *)
Definition _build_search_params
    (query : string) (category : pyval) (language region : string)
    (page results_per_page : Z)
    (safe_search time_filter size duration latitude longitude radius : pyval)
    (kwargs : Dict.t pyval) : result (Dict.t pyval) :=
  if Str.is_empty (Str.strip query) then Raise (ValueError "Query cannot be empty.")
  else
    let params : Dict.t pyval :=
      [ ("query", PStr (Str.strip query));
        ("cat", category);
        ("cmd", PStr "process_search");
        ("language", PStr (Dict.get_default language language LANGUAGE_CODES));
        ("lui", PStr (Dict.get_default language language LANGUAGE_CODES));
        ("pl", PStr (Dict.get_default region region REGION_CODES));
        ("startat", PStr (Str.of_int ((page - 1) * results_per_page))) ] in
    let params :=
      Dict.set_if
        (py_truthy safe_search && negb (py_in_strs category ["news"; "places"]))
        "ff" (table_get SAFE_SEARCH_LEVELS safe_search (PStr "0")) params in
    let params :=
      Dict.set_if (py_eq_str category "web")
        "num" (PStr (Str.of_int results_per_page)) params in
    let params :=
      Dict.set_if
        (py_truthy time_filter && negb (py_eq_str time_filter "any")
         && py_in_strs category ["web"; "video"; "news"])
        "with_date" (table_get TIME_FILTERS time_filter time_filter) params in
    let params :=
      Dict.set_if
        (py_truthy size && negb (py_eq_str size "any")
         && py_eq_str category "images")
        "size" (table_get IMAGE_SIZES size size) params in
    let params :=
      Dict.set_if
        (py_truthy duration && negb (py_eq_str duration "any")
         && py_eq_str category "video")
        "duration" (table_get VIDEO_DURATIONS duration duration) params in
    let geo := py_is_not_none latitude && py_is_not_none longitude
               && py_eq_str category "places" in
    let params := Dict.set_if geo "latitude" (PStr (py_str latitude)) params in
    let params := Dict.set_if geo "longitude" (PStr (py_str longitude)) params in
    let params :=
      Dict.set_if (py_is_not_none radius && py_eq_str category "places")
        "radius" (PStr (py_str radius)) params in
    Ok (Dict.update params kwargs).

(* ------------------------------------------------------------------ *)
(** ** The client object, the clock and the network *)

(** One call of [urlopen] / [opener.open]: the request object together with
    the proxy and the timeout it is opened with. [call_form] is the form
    dictionary whose [urlencode]d text is the body of a POST; [None] is a
    GET. *)
Record HttpCall : Type := {
  call_url : string;
  call_form : option (Dict.t pyval);
  call_headers : Dict.t string;
  call_proxy : option string;
  call_timeout : Z
}.

Record HttpResponse : Type := {
  resp_content : string;
  resp_content_encoding : option string
}.

(** What opening a request and reading the response can do. *)
Inductive urlopen_outcome : Type :=
| Responded (r : HttpResponse)
| RaisedHTTPError (code : Z) (reason : string)
| RaisedURLError (reason : string)
| RaisedOther (e : exn).

(** How [urlopen] ends an exchange whose last response has the status
    [status]: [HTTPErrorProcessor] hands a 2xx response to the caller, and
    has any other one raised as [HTTPError] with that status and reason
    ([HTTPDefaultErrorHandler]). A redirect that [urlopen] follows itself is
    not the last response. *)
Definition http_response (status : Z) (reason : string)
    (response : HttpResponse) : urlopen_outcome :=
  if (200 <=? status) && (status <? 300)
  then Responded response
  else RaisedHTTPError status reason.

(** The attributes of a [StartpageAPI] object that the requests read or
    write, the wall clock, and the calls that went out so far, oldest first.
    [clock] is what [time.time()] returns; times and the delay are floats,
    as in the source ([delay: float = 1.0], [last_request_time: float]). *)
Record World : Type := {
  proxy : option string;
  timeout : Z;
  delay : PrimFloat.float;
  last_request_time : PrimFloat.float;
  clock : PrimFloat.float;
  wire : list HttpCall
}.

Definition M (A : Type) : Type := World -> result A * World.

Definition ret {A : Type} (a : A) : M A := fun w => (Ok a, w).

Definition raise {A : Type} (e : exn) : M A := fun w => (Raise e, w).

Definition bind {A B : Type} (c : M A) (k : A -> M B) : M B :=
  fun w =>
    match c w with
    | (Ok a, w') => k a w'
    | (Raise e, w') => (Raise e, w')
    end.

Definition lift {A : Type} (r : result A) : M A := fun w => (r, w).

Notation "x <- c ;; k" := (bind c (fun x => k))
  (at level 61, c at next level, right associativity).

Definition rbind {A B : Type} (r : result A) (k : A -> result B) : result B :=
  match r with
  | Ok a => k a
  | Raise e => Raise e
  end.

(** [time.sleep(d)]: the clock moves only by sleeping, and by what was asked
    for. ([time.sleep] itself refuses a duration beyond the range of its
    timer, some 292 years; that limit of the interpreter is not modelled.) *)
Definition sleep (d : PrimFloat.float) (w : World) : World :=
  {| proxy := proxy w; timeout := timeout w; delay := delay w;
     last_request_time := last_request_time w;
     clock := PrimFloat.add (clock w) d; wire := wire w |}.

Definition set_last_request_time (t : PrimFloat.float) (w : World) : World :=
  {| proxy := proxy w; timeout := timeout w; delay := delay w;
     last_request_time := t;
     clock := clock w; wire := wire w |}.

Definition record_call (c : HttpCall) (w : World) : World :=
  {| proxy := proxy w; timeout := timeout w; delay := delay w;
     last_request_time := last_request_time w;
     clock := clock w; wire := wire w ++ [c] |}.

(** [StartpageAPI._respect_delay] *)
Definition _respect_delay (w : World) : World :=
  let current_time := clock w in
  let time_since_last := PrimFloat.sub current_time (last_request_time w) in
  let w := if PrimFloat.ltb time_since_last (delay w)
           then sleep (PrimFloat.sub (delay w) time_since_last) w
           else w in
  set_last_request_time (clock w) w.

(** [StartpageAPI._get_headers] *)
Definition _get_headers (referer : option string) : Dict.t string :=
  let headers := DEFAULT_HEADERS in
  match referer with
  | Some r => if Str.is_empty r then headers else Dict.set "Referer" r headers
  | None => headers
  end.

(** [not v] is false: a string that is there and not empty. *)
Definition str_truthy (v : option string) : bool :=
  match v with
  | Some s => negb (Str.is_empty s)
  | None => false
  end.

(** The request of [_make_request] and how it is opened: the default headers
    when none are given, a POST when there is form data and a GET otherwise,
    the proxy when one is configured. *)
Definition prepare_call (url : string) (data : option (Dict.t pyval))
    (headers : option (Dict.t string)) (w : World) : HttpCall :=
  let headers := match headers with
                 | None => _get_headers None
                 | Some h => h
                 end in
  {| call_url := url;
     call_form := match data with
                  | Some ((_ :: _) as d) => Some d
                  | _ => None
                  end;
     call_headers := headers;
     call_proxy := if str_truthy (proxy w) then proxy w else None;
     call_timeout := timeout w |}.

(** A keyword that [f(k1=v1, ..., **kwargs)] passes twice: Python raises
    [TypeError] for such a call, when it merges [kwargs] into the keywords
    that are written out. It goes through [kwargs] in its order, so the
    keyword it names is the first key of [kwargs] that is written out too. *)
Definition repeated_keyword (explicit : list string) (kwargs : Dict.t pyval)
  : option string :=
  match find (fun kv => existsb (String.eqb (fst kv)) explicit) kwargs with
  | Some kv => Some (fst kv)
  | None => None
  end.

(** The error of such a call; [f] is the callee as CPython (3.9 and later)
    prints it, its qualified name after the name of its module. *)
Definition multiple_values (f k : string) : exn :=
  TypeError (f ++ "() got multiple values for keyword argument '" ++ k ++ "'").

(** A parameter the call leaves to [**kwargs]: bound from there when the key
    is present, its default otherwise. *)
Definition keyword_or_default (name : string) (dflt : pyval)
    (kwargs : Dict.t pyval) : pyval :=
  Dict.get_default name dflt kwargs.

(** The keywords that are left for the callee's own [**kwargs]. *)
Definition remaining_kwargs (bound : list string) (kwargs : Dict.t pyval)
  : Dict.t pyval :=
  filter (fun kv => negb (existsb (String.eqb (fst kv)) bound)) kwargs.

(** The result of [json.loads]. *)
#[warnings="-register-all"]
Inductive json : Type :=
| JNull
| JBool (b : bool)
| JInt (n : Z)
| JFloat (repr : string)
| JStr (s : string)
| JList (l : list json)
| JDict (l : list (string * json)).

(** A knowledge panel: the dictionary with the keys [title], [description],
    [facts] and [source]. *)
Record Panel : Type := {
  title : string;
  description : string;
  facts : Dict.t string;
  source : string
}.

(** The dictionary [instant_answers] returns. *)
Record Bundle : Type := {
  instant_answer : option string;
  knowledge_panel : option Panel
}.

(* ------------------------------------------------------------------ *)
(** ** A small world to run the program in

    Stand-ins for the libraries: a constructor of requests that reads the
    [https] URLs, a network of five hosts, a JSON reader that knows two
    texts, documents without markup. The examples at the end of the file run
    the program on them. *)

Module Demo.

Definition quoted (s : string) : string :=
  String (ascii_of_nat 34) s ++ String (ascii_of_nat 34) "".

(** The texts [["q", ["qa", "qb", "qc"]]] and [["q", ["a", "a"]]]. *)
Definition three_suggestions : string :=
  "[" ++ quoted "q" ++ ", [" ++ quoted "qa" ++ ", " ++ quoted "qb" ++ ", "
  ++ quoted "qc" ++ "]]".

Definition repeated_suggestion : string :=
  "[" ++ quoted "q" ++ ", [" ++ quoted "a" ++ ", " ++ quoted "a" ++ "]]".

Definition urlopen (past : list HttpCall) (c : HttpCall) : urlopen_outcome :=
  if (call_url c =? "https://busy.example/")%string
  then RaisedHTTPError 429 "Too Many Requests"
  else if (call_url c =? "https://broken.example/")%string
  then RaisedHTTPError 500 "Internal Server Error"
  else if (call_url c =? "https://nowhere.example/")%string
  then RaisedURLError "[Errno -2] Name or service not known"
  else if (call_url c =? "https://stalled.example/")%string
  then RaisedOther (PyException "TimeoutError" "The read operation timed out")
  else if (call_url c =? "https://garbled.example/")%string
  then Responded {| resp_content := "not gzip";
                    resp_content_encoding := Some "gzip" |}
  else Responded {| resp_content := "Paris is the capital of France.";
                    resp_content_encoding := None |}.

(** A URL is read when it begins with [https://]. *)
Definition Request_raises (url : string) : option exn :=
  if Str.startswith url "https://" then None
  else Some (ValueError ("unknown url type: '" ++ url ++ "'")).

Definition gzip_decompress (content : string) : result string :=
  Raise (PyException "BadGzipFile" "Not a gzipped file").

Definition decode_utf8 (content : string) : string := content.

Definition urlencode (d : Dict.t pyval) : string :=
  String.concat "&" (map (fun kv => fst kv ++ "=" ++ py_str (snd kv)) d).

Definition json_loads (text : string) : result json :=
  if (text =? three_suggestions)%string
  then Ok (JList [JStr "q"; JList [JStr "qa"; JStr "qb"; JStr "qc"]])
  else if (text =? repeated_suggestion)%string
  then Ok (JList [JStr "q"; JList [JStr "a"; JStr "a"]])
  else Raise (PyException "JSONDecodeError" "Expecting value").

(** A document is its text; it has no elements. *)
Definition soup : Type := string.
Definition tag : Type := string.
Definition BeautifulSoup (text : string) : result soup := Ok text.
Definition soup_select (doc : soup) (selector : string) : result (list tag) :=
  Ok [].
Definition soup_find_all_suggest (doc : soup) : result (list tag) := Ok [].
Definition tag_get (elem : tag) (attribute : string) : option string := None.
Definition tag_get_text (elem : tag) : string := elem.

(** A result page is the text it was read from. *)
Definition ResultPage : Type := string.
Definition parse_page (html : string) : result ResultPage := Ok html.

(** The first detector answers with the first word of the page, the first
    panel detector with a titled panel holding the page. *)
Definition answer_from_sxpr (doc : soup) (query : string) : option string :=
  if Str.startswith doc "Paris" then Some "Paris" else None.
Definition no_answer (html : string) : option string := None.
Definition no_answer2 (html query : string) : option string := None.
Definition no_answer_doc (doc : soup) (query : string) : option string := None.
Definition panel_from_sxpr (doc : soup) : option Panel :=
  Some {| title := "France"; description := doc; facts := [];
          source := "Startpage Knowledge" |}.
Definition no_panel (doc : soup) : option Panel := None.

(** A fresh client with the default settings, at time 0. *)
Definition world : World :=
  {| proxy := None; timeout := 30; delay := PrimFloat.one;
     last_request_time := PrimFloat.zero; clock := PrimFloat.zero;
     wire := [] |}.

End Demo.

(** A page of [option] elements for the scan of [parse_suggestions]: a
    document is the list of its options, and an option has a text and may
    have a [value]. *)
Module Markup.

Record tag : Type := { value : option string; text : string }.

Definition soup : Type := list tag.

(** Four options: [ cats ] as a value, [cats] again as a text, [dogs] after
    blanks, and one with an empty value and no text. *)
Definition options_page : string :=
  "<option value=' cats '>x</option><option>cats</option>"
  ++ "<option>  dogs</option><option value=''></option>".

Definition BeautifulSoup (page : string) : result soup :=
  if (page =? options_page)%string
  then Ok [ {| value := Some " cats "; text := "x" |};
            {| value := None; text := "cats" |};
            {| value := None; text := "  dogs" |};
            {| value := Some EmptyString; text := EmptyString |} ]
  else Ok [].

Definition soup_select (doc : soup) (selector : string) : result (list tag) :=
  Ok (if (selector =? "option")%string then doc else []).

Definition soup_find_all_suggest (doc : soup) : result (list tag) := Ok [].

Definition tag_get (elem : tag) (attribute : string) : option string :=
  if (attribute =? "value")%string then value elem else None.

Definition tag_get_text (elem : tag) : string := text elem.

End Markup.

(* ------------------------------------------------------------------ *)
(** ** The program over its libraries

    The standard library and BeautifulSoup are not part of the program: the
    request objects, the network, [gzip], the codecs, [json] and the
    document tree are variables of this section, and so are the extractors
    that only query the document tree or match regular expressions. *)

Section Program.

Set Default Proof Using "Type".

(** [urllib.request.Request(url, ...)]: what the constructor raises for a
    URL it cannot read, if anything. For a URL without a scheme that is
    [ValueError("unknown url type: ...")]; what it makes of a malformed host
    depends on the version of the library. *)
Variable Request_raises : string -> option exn.
(** [urlopen] and [read]: the answer to a call, given the calls before. *)
Variable urlopen : list HttpCall -> HttpCall -> urlopen_outcome.
(** [gzip.decompress] *)
Variable gzip_decompress : string -> result string.
(** [bytes.decode("utf-8", errors="ignore")] *)
Variable decode_utf8 : string -> string.
(** [urllib.parse.urlencode] *)
Variable urlencode : Dict.t pyval -> string.
(** [json.loads]; a text that is not JSON raises [JSONDecodeError]. *)
Variable json_loads : string -> result json.

(** BeautifulSoup: documents and their elements. *)
Variable soup : Type.
Variable tag : Type.
(** [BeautifulSoup(text, "lxml")] *)
Variable BeautifulSoup : string -> result soup.
(** [soup.select(selector)] *)
Variable soup_select : soup -> string -> result (list tag).
(** [soup.find_all(["li", "div"], class_=re.compile(r"suggest|autocomplete", re.I))] *)
Variable soup_find_all_suggest : soup -> result (list tag).
(** [elem.get(attribute)] *)
Variable tag_get : tag -> string -> option string.
(** [elem.get_text(separator=" ", strip=True)] *)
Variable tag_get_text : tag -> string.

(** The five extractors of [StartpageParser], one per category. *)
Variable ResultPage : Type.
Variable _parse_web_results : string -> result ResultPage.
Variable _parse_image_results : string -> result ResultPage.
Variable _parse_video_results : string -> result ResultPage.
Variable _parse_news_results : string -> result ResultPage.
Variable _parse_places_results : string -> result ResultPage.

(** The detectors of [instant_answers]. *)
Variable _extract_instant_answer_from_sxpr : soup -> string -> option string.
Variable _extract_calculator_answer : string -> option string.
Variable _extract_time_date_answer : string -> string -> option string.
Variable _extract_weather_answer : soup -> string -> option string.
Variable _extract_knowledge_panel_from_sxpr : soup -> option Panel.
Variable _extract_generic_knowledge_panel : soup -> option Panel.

(** *** client.py: the transport *)

(** What [Request(url, ...)] raises, if anything. The library reads every
    URL of the service: a text that begins with [https://www.startpage.com/]
    has the scheme [https] and the host [www.startpage.com]. For any other
    URL it is the verdict of the library. *)
Definition Request_error (url : string) : option exn :=
  if Str.startswith url (BASE_URL ++ "/") then None else Request_raises url.

(** [urllib.request.Request(url, data=data_encoded, headers=headers)], with
    how the request will be opened *)
Definition Request (url : string) (data : option (Dict.t pyval))
    (headers : option (Dict.t string)) (w : World) : result HttpCall :=
  match Request_error url with
  | Some e => Raise e
  | None => Ok (prepare_call url data headers w)
  end.

(** [StartpageAPI._make_request]. The request is built inside the [try]:
    when [Request] raises, nothing is opened, and the error is wrapped like
    any other unexpected one. *)
Definition _make_request (url : string) (data : option (Dict.t pyval))
    (headers : option (Dict.t string)) : M string :=
  fun w =>
    let w := _respect_delay w in
    match Request url data headers w with
    | Raise e =>
        (Raise (StartpageError
                  ("Request failed due to an unexpected error: " ++ exn_str e)),
         w)
    | Ok req =>
        match urlopen (wire w) req with
        | Responded response =>
            let content := resp_content response in
            let content :=
              match resp_content_encoding response with
              | Some enc => if (enc =? "gzip")%string
                            then gzip_decompress content else Ok content
              | None => Ok content
              end in
            match content with
            | Ok content => (Ok (decode_utf8 content), record_call req w)
            | Raise e =>
                (Raise (StartpageError
                          ("Request failed due to an unexpected error: "
                           ++ exn_str e)),
                 record_call req w)
            end
        | RaisedHTTPError code reason =>
            if code =? 429
            then (Raise (StartpageRateLimitError
                           ("Rate limit exceeded: " ++ Str.of_int code ++ " "
                            ++ reason)),
                  record_call req w)
            else (Raise (StartpageHTTPError code
                           ("HTTP error: " ++ Str.of_int code ++ " " ++ reason)),
                  record_call req w)
        | RaisedURLError reason =>
            (Raise (StartpageError ("Network error: " ++ reason)),
             record_call req w)
        | RaisedOther e =>
            (Raise (StartpageError
                      ("Request failed due to an unexpected error: "
                       ++ exn_str e)),
             record_call req w)
        end
    end.

(** *** parser.py *)

(** [StartpageParser._safe_json_loads] *)
Definition _safe_json_loads (json_string : option string) : result (option json) :=
  match json_string with
  | None => Ok None
  | Some text =>
      match json_loads text with
      | Ok data => Ok (Some data)
      | Raise e =>
          if (exn_type_name e =? "JSONDecodeError")%string
          then Ok None else Raise e
      end
  end.

(** [StartpageParser._extract_text] *)
Definition _extract_text (bs_element : option tag) : string :=
  match bs_element with
  | None => ""
  | Some e =>
      let text := tag_get_text e in
      let text := Str.replace_nbsp text in
      Str.strip (Str.collapse_ws text)
  end.

(** [StartpageParser.parse_search_results] *)
Definition parse_search_results (html search_type : string) : result ResultPage :=
  if Str.is_empty html
  then Raise (StartpageParseError "Cannot parse empty HTML content.")
  else
    let parser_method_map : Dict.t (string -> result ResultPage) :=
      [ ("web", _parse_web_results);
        ("images", _parse_image_results);
        ("videos", _parse_video_results);
        ("news", _parse_news_results);
        ("places", _parse_places_results) ] in
    let attempt :=
      match Dict.get search_type parser_method_map with
      | Some parse => parse html
      | None =>
          Raise (StartpageParseError
                   ("Unknown search type for parsing: " ++ search_type))
      end in
    match attempt with
    | Ok page => Ok page
    | Raise e =>
        let error_type := exn_type_name e in
        Raise (StartpageParseError
                 ("Failed to parse '" ++ search_type ++ "' results due to "
                  ++ error_type ++ ": " ++ exn_str e))
    end.

(** [str(s) for s in data[1] if isinstance(s, (str, int, float))]; a [bool]
    is an [int]. *)
Fixpoint scalar_strings (l : list json) : list string :=
  match l with
  | [] => []
  | JStr s :: r => s :: scalar_strings r
  | JInt n :: r => Str.of_int n :: scalar_strings r
  | JFloat x :: r => x :: scalar_strings r
  | JBool b :: r => py_str (PBool b) :: scalar_strings r
  | _ :: r => scalar_strings r
  end.

(** [elem.get("value") or elem.get("data-suggestion") or _extract_text(elem)] *)
Definition suggestion_text (elem : tag) : string :=
  if str_truthy (tag_get elem "value")
  then match tag_get elem "value" with Some s => s | None => "" end
  else if str_truthy (tag_get elem "data-suggestion")
  then match tag_get elem "data-suggestion" with Some s => s | None => "" end
  else _extract_text (Some elem).

(** One turn of the loop over [suggestion_elements]. *)
Definition add_suggestion (suggestions : list string) (elem : tag) : list string :=
  let text := suggestion_text elem in
  if negb (Str.is_empty text) && negb (Str.is_empty (Str.strip text))
     && negb (existsb (String.eqb (Str.strip text)) suggestions)
  then suggestions ++ [Str.strip text]
  else suggestions.

(** The loop over [suggestion_item_selectors]. *)
Fixpoint select_all (doc : soup) (selectors : list string) (acc : list tag)
  : result (list tag) :=
  match selectors with
  | [] => Ok acc
  | selector :: r =>
      rbind (soup_select doc selector) (fun found =>
        select_all doc r (match found with
                          | [] => acc
                          | _ => acc ++ found
                          end))
  end.

(** The second [try] block of [parse_suggestions]. *)
Definition scan_suggestions (response_text : string) (suggestions : list string)
  : result (list string) :=
  rbind (BeautifulSoup response_text) (fun doc =>
    let suggestion_item_selectors :=
      [ "li.suggestion-item"; "div.autocomplete-suggestion";
        "option"; "li[role='option']" ] in
    rbind (select_all doc suggestion_item_selectors []) (fun suggestion_elements =>
      rbind (match suggestion_elements with
             | [] => soup_find_all_suggest doc
             | _ => Ok suggestion_elements
             end) (fun suggestion_elements =>
        let suggestions := fold_left add_suggestion suggestion_elements suggestions in
        Ok (firstn 10 suggestions)))).

(** [StartpageParser.parse_suggestions] *)
Definition parse_suggestions (response_text : string) : list string :=
  let suggestions : list string := [] in
  let first_try : option (list string) :=
    match _safe_json_loads (Some response_text) with
    | Ok (Some (JList (_ :: JList items :: _))) =>
        let suggestions := scalar_strings items in
        Some (firstn 10 suggestions)
    | _ => None
    end in
  match first_try with
  | Some suggestions => suggestions
  | None =>
      match scan_suggestions response_text suggestions with
      | Ok suggestions => suggestions
      | Raise _ => []
      end
  end.

(** *** client.py: the facade *)

(** The keywords [_perform_search_request] passes to
    [_build_search_params] itself. *)
Definition builder_keywords : list string :=
  [ "query"; "category"; "language"; "region"; "page"; "results_per_page";
    "safe_search"; "time_filter"; "size"; "duration"; "latitude";
    "longitude"; "radius" ].

(** [StartpageAPI._perform_search_request] *)
Definition _perform_search_request
    (query : string) (category : pyval) (category_for_parser : string)
    (language region : string) (safe_search : pyval)
    (page results_per_page : Z)
    (time_filter size duration latitude longitude radius : pyval)
    (kwargs : Dict.t pyval) : M ResultPage :=
  match repeated_keyword builder_keywords kwargs with
  | Some k =>
      raise (multiple_values
               "startpageapi.client.StartpageAPI._build_search_params" k)
  | None =>
      params <- lift (_build_search_params query category language region
                        page results_per_page safe_search time_filter size
                        duration latitude longitude radius kwargs) ;;
      html_content <- _make_request SEARCH_URL (Some params) None ;;
      lift (parse_search_results html_content category_for_parser)
  end.

Definition perform : string :=
  "startpageapi.client.StartpageAPI._perform_search_request".

(** The keywords each public method passes to [_perform_search_request]
    itself. *)
Definition search_passes : list string :=
  [ "query"; "category"; "category_for_parser"; "language"; "region";
    "safe_search"; "page"; "results_per_page"; "time_filter" ].

Definition images_search_passes : list string :=
  [ "query"; "category"; "category_for_parser"; "language"; "region";
    "safe_search"; "page"; "results_per_page"; "size" ].

Definition videos_search_passes : list string :=
  [ "query"; "category"; "category_for_parser"; "language"; "region";
    "safe_search"; "page"; "results_per_page"; "duration"; "time_filter" ].

Definition news_search_passes : list string :=
  [ "query"; "category"; "category_for_parser"; "language"; "region";
    "safe_search"; "page"; "results_per_page"; "time_filter" ].

Definition places_search_passes : list string :=
  [ "query"; "category"; "category_for_parser"; "language"; "region";
    "safe_search"; "page"; "results_per_page"; "latitude"; "longitude";
    "radius" ].

(** [StartpageAPI.search] *)
Definition search (query language region safe_search time_filter : string)
    (page results_per_page : Z) (kwargs : Dict.t pyval) : M ResultPage :=
  match repeated_keyword search_passes kwargs with
  | Some k => raise (multiple_values perform k)
  | None =>
      _perform_search_request query (PStr "web") "web" language region
        (PStr safe_search) page results_per_page (PStr time_filter)
        (keyword_or_default "size" PNone kwargs)
        (keyword_or_default "duration" PNone kwargs)
        (keyword_or_default "latitude" PNone kwargs)
        (keyword_or_default "longitude" PNone kwargs)
        (keyword_or_default "radius" PNone kwargs)
        (remaining_kwargs
           ["size"; "duration"; "latitude"; "longitude"; "radius"] kwargs)
  end.

(** [StartpageAPI.images_search] *)
Definition images_search (query language region safe_search size : string)
    (page results_per_page : Z) (kwargs : Dict.t pyval) : M ResultPage :=
  match repeated_keyword images_search_passes kwargs with
  | Some k => raise (multiple_values perform k)
  | None =>
      _perform_search_request query (PStr "pics") "images" language region
        (PStr safe_search) page results_per_page
        (keyword_or_default "time_filter" PNone kwargs)
        (PStr size)
        (keyword_or_default "duration" PNone kwargs)
        (keyword_or_default "latitude" PNone kwargs)
        (keyword_or_default "longitude" PNone kwargs)
        (keyword_or_default "radius" PNone kwargs)
        (remaining_kwargs
           ["time_filter"; "duration"; "latitude"; "longitude"; "radius"] kwargs)
  end.

(** [StartpageAPI.videos_search] *)
Definition videos_search
    (query language region safe_search duration time_filter : string)
    (page results_per_page : Z) (kwargs : Dict.t pyval) : M ResultPage :=
  match repeated_keyword videos_search_passes kwargs with
  | Some k => raise (multiple_values perform k)
  | None =>
      _perform_search_request query (PStr "video") "videos" language region
        (PStr safe_search) page results_per_page (PStr time_filter)
        (keyword_or_default "size" PNone kwargs)
        (PStr duration)
        (keyword_or_default "latitude" PNone kwargs)
        (keyword_or_default "longitude" PNone kwargs)
        (keyword_or_default "radius" PNone kwargs)
        (remaining_kwargs ["size"; "latitude"; "longitude"; "radius"] kwargs)
  end.

(** [StartpageAPI.news_search] *)
Definition news_search (query language region time_filter : string)
    (page results_per_page : Z) (kwargs : Dict.t pyval) : M ResultPage :=
  match repeated_keyword news_search_passes kwargs with
  | Some k => raise (multiple_values perform k)
  | None =>
      _perform_search_request query (PStr "news") "news" language region
        PNone page results_per_page (PStr time_filter)
        (keyword_or_default "size" PNone kwargs)
        (keyword_or_default "duration" PNone kwargs)
        (keyword_or_default "latitude" PNone kwargs)
        (keyword_or_default "longitude" PNone kwargs)
        (keyword_or_default "radius" PNone kwargs)
        (remaining_kwargs
           ["size"; "duration"; "latitude"; "longitude"; "radius"] kwargs)
  end.

(** [StartpageAPI.places_search]; [latitude], [longitude] and [radius] are
    [None] or a number. *)
Definition places_search (query language region : string)
    (latitude longitude radius : pyval)
    (page results_per_page : Z) (kwargs : Dict.t pyval) : M ResultPage :=
  match repeated_keyword places_search_passes kwargs with
  | Some k => raise (multiple_values perform k)
  | None =>
      _perform_search_request query (PStr "map") "places" language region
        PNone page results_per_page
        (keyword_or_default "time_filter" PNone kwargs)
        (keyword_or_default "size" PNone kwargs)
        (keyword_or_default "duration" PNone kwargs)
        latitude longitude radius
        (remaining_kwargs ["time_filter"; "size"; "duration"] kwargs)
  end.

(** [StartpageAPI.suggestions] *)
Definition suggestions (query_part language : string) : M (list string) :=
  if Str.is_empty (Str.strip query_part) then ret []
  else
    let params : Dict.t pyval :=
      [ ("q", PStr (Str.strip query_part));
        ("segment", PStr "startpage.ucp");
        ("format", PStr "opensearch");
        ("lang", PStr (Dict.get_default language language LANGUAGE_CODES)) ] in
    let query_string := urlencode params in
    let full_url := SUGGESTIONS_URL ++ "?" ++ query_string in
    response_text <- _make_request full_url None None ;;
    ret (parse_suggestions response_text).

(** The four instant-answer detectors of [instant_answers], in order. *)
Definition detect_instant_answer (doc : soup) (html_content query : string)
  : option string :=
  let instant_answer : option string := None in
  let instant_answer :=
    if negb (str_truthy instant_answer)
    then _extract_instant_answer_from_sxpr doc query else instant_answer in
  let instant_answer :=
    if negb (str_truthy instant_answer)
    then _extract_calculator_answer html_content else instant_answer in
  let instant_answer :=
    if negb (str_truthy instant_answer)
    then _extract_time_date_answer html_content query else instant_answer in
  let instant_answer :=
    if negb (str_truthy instant_answer)
    then _extract_weather_answer doc query else instant_answer in
  instant_answer.

(** The two knowledge-panel detectors of [instant_answers], in order; a
    panel is a dictionary with four keys and so never false. *)
Definition detect_knowledge_panel (doc : soup) : option Panel :=
  let knowledge_panel : option Panel := None in
  let knowledge_panel :=
    match knowledge_panel with
    | None => _extract_knowledge_panel_from_sxpr doc
    | Some _ => knowledge_panel
    end in
  let knowledge_panel :=
    match knowledge_panel with
    | None => _extract_generic_knowledge_panel doc
    | Some _ => knowledge_panel
    end in
  knowledge_panel.

(** The last step of [instant_answers]: an answer and a panel that repeat
    each other. *)
Definition clear_duplicate (instant_answer : option string)
    (knowledge_panel : option Panel) : Bundle :=
  match instant_answer, knowledge_panel with
  | Some answer, Some panel =>
      if negb (Str.is_empty answer) && negb (Str.is_empty (description panel))
      then
        if Str.contains answer (description panel)
           || Str.contains (description panel) answer
        then
          if negb (Str.is_empty (title panel))
          then {| instant_answer := None; knowledge_panel := knowledge_panel |}
          else {| instant_answer := instant_answer; knowledge_panel := None |}
        else {| instant_answer := instant_answer;
                knowledge_panel := knowledge_panel |}
      else {| instant_answer := instant_answer;
              knowledge_panel := knowledge_panel |}
  | _, _ => {| instant_answer := instant_answer;
               knowledge_panel := knowledge_panel |}
  end.

(** [StartpageAPI.instant_answers] *)
Definition instant_answers (query language : string) (kwargs : Dict.t pyval)
  : M Bundle :=
  if Str.is_empty (Str.strip query)
  then ret {| instant_answer := None; knowledge_panel := None |}
  else
    let search_params : Dict.t pyval :=
      [ ("query", PStr (Str.strip query));
        ("cat", PStr "web");
        ("cmd", PStr "process_search");
        ("language", PStr (Dict.get_default language language LANGUAGE_CODES));
        ("lui", PStr (Dict.get_default language language LANGUAGE_CODES)) ] in
    let search_params := Dict.update search_params kwargs in
    html_content <- _make_request SEARCH_URL (Some search_params) None ;;
    doc <- lift (BeautifulSoup html_content) ;;
    let instant_answer := detect_instant_answer doc html_content query in
    let knowledge_panel := detect_knowledge_panel doc in
    ret (clear_duplicate instant_answer knowledge_panel).

(** One turn of the loop of [advanced_search] over [kwargs.items()]. *)
Definition map_advanced (params : Dict.t pyval) (item : string * pyval)
  : Dict.t pyval :=
  let (key, value) := item in
  match Dict.get key ADVANCED_SEARCH_PARAMS with
  | Some startpage_param_key => Dict.set startpage_param_key value params
  | None => if Dict.mem key params then Dict.set key value params else params
  end.

(** [StartpageAPI.advanced_search]. The parameters of
    [_perform_search_request] that the call does not pass keep their
    defaults: a key of [params] is [cmd] or a value of
    [ADVANCED_SEARCH_PARAMS], and none of these names a parameter. *)
Definition advanced_search (query : string) (kwargs : Dict.t pyval)
  : M ResultPage :=
  if Str.is_empty (Str.strip query)
  then raise (ValueError "Query cannot be empty for advanced search.")
  else
    let params : Dict.t pyval :=
      [ ("query", PStr (Str.strip query));
        ("cat", PStr "web");
        ("cmd", PStr "process_search") ] in
    let params := fold_left map_advanced kwargs params in
    match Dict.get "query" params, Dict.get "cat" params with
    | Some (PStr query), Some category =>
        let params := Dict.remove "cat" (Dict.remove "query" params) in
        match repeated_keyword
                ["query"; "category"; "category_for_parser"] params with
        | Some k => raise (multiple_values perform k)
        | None =>
            _perform_search_request query category "web" "en" "all"
              (PStr "moderate") 1 10 PNone PNone PNone PNone PNone PNone params
        end
    | Some _, Some _ =>
        (* [query.strip()] in [_build_search_params]: only a [str] has it *)
        raise (PyException "AttributeError" "object has no attribute 'strip'")
    | _, _ => raise (PyException "KeyError" "query")
    end.

(* ---------------------------------------------------------------- *)
(** ** Properties *)

(** Membership in a list that is written out. *)
Ltac in_list := solve [cbn [In]; repeat first [left; reflexivity | right]].

(** *** Strings *)

Lemma is_empty_true (s : string) : Str.is_empty s = true <-> s = "".
Proof. destruct s; simpl; split; congruence. Qed.

Lemma is_empty_false (s : string) : Str.is_empty s = false <-> s <> "".
Proof. destruct s; simpl; split; congruence. Qed.

Lemma rstrip_cons (c : ascii) (r : string) :
  Str.is_space c = false -> Str.rstrip (String c r) = String c (Str.rstrip r).
Proof.
  intros Hc. simpl. rewrite Hc. destruct (Str.rstrip r); reflexivity.
Qed.

Lemma rstrip_idem (s : string) : Str.rstrip (Str.rstrip s) = Str.rstrip s.
Proof.
  induction s as [|c r IH]; simpl; [reflexivity|].
  destruct (Str.rstrip r) as [|d r'] eqn:E.
  - destruct (Str.is_space c) eqn:Hc; simpl; [reflexivity|].
    rewrite Hc. reflexivity.
  - change (Str.rstrip (String c (String d r')) = String c (String d r')).
    cbn [Str.rstrip]. cbn [Str.rstrip] in IH. rewrite IH. reflexivity.
Qed.

Lemma lstrip_clean (s : string) : clean_head (Str.lstrip s).
Proof.
  induction s as [|c r IH]; simpl; [exact I|].
  destruct (Str.is_space c) eqn:Hc; [exact IH|]. simpl. exact Hc.
Qed.

Lemma lstrip_of_clean (s : string) : clean_head s -> Str.lstrip s = s.
Proof. destruct s as [|c r]; simpl; [reflexivity|]. intros ->. reflexivity. Qed.

Lemma rstrip_clean (s : string) : clean_head s -> clean_head (Str.rstrip s).
Proof.
  destruct s as [|c r]; simpl; [trivial|]. intros Hc.
  rewrite Hc. destruct (Str.rstrip r); simpl; exact Hc.
Qed.

Lemma strip_clean (s : string) : clean_head (Str.strip s).
Proof. apply rstrip_clean, lstrip_clean. Qed.

Lemma strip_idem (s : string) : Str.strip (Str.strip s) = Str.strip s.
Proof.
  unfold Str.strip at 1. rewrite (lstrip_of_clean _ (strip_clean s)).
  unfold Str.strip. apply rstrip_idem.
Qed.

Lemma rstrip_strip (s : string) : Str.rstrip (Str.strip s) = Str.strip s.
Proof. unfold Str.strip. apply rstrip_idem. Qed.

Lemma strip_trimmed (s : string) : trimmed (Str.strip s).
Proof. apply strip_idem. Qed.

Lemma strip_cons (c : ascii) (r : string) :
  Str.is_space c = false -> Str.strip (String c r) = String c (Str.rstrip r).
Proof.
  intros Hc. unfold Str.strip. simpl Str.lstrip. rewrite Hc.
  apply rstrip_cons, Hc.
Qed.

(** The first character survives [rstrip] when it is not whitespace. *)
Lemma startswith_rstrip (c : ascii) (s : string) :
  Str.is_space c = false ->
  Str.startswith (Str.rstrip s) (String c "") = Str.startswith s (String c "").
Proof.
  intros Hc. destruct s as [|d r]; [reflexivity|].
  cbn [Str.rstrip].
  destruct (Str.rstrip r) eqn:E; [|reflexivity].
  destruct (Str.is_space d) eqn:Hd; [|reflexivity].
  cbn [Str.startswith]. rewrite andb_true_r.
  destruct (Ascii.eqb_spec c d) as [->|N]; [congruence|reflexivity].
Qed.

(** *** Dictionaries *)

Lemma get_set (V : Type) (k k' : string) (v : V) (d : Dict.t V) :
  Dict.get k (Dict.set k' v d)
  = if (k' =? k)%string then Some v else Dict.get k d.
Proof.
  induction d as [|[a x] r IH]; simpl.
  - reflexivity.
  - destruct (String.eqb_spec a k') as [->|Na]; simpl.
    + destruct (k' =? k)%string; reflexivity.
    + rewrite IH. destruct (String.eqb_spec a k) as [->|Nk]; [|reflexivity].
      destruct (String.eqb_spec k' k) as [->|]; [congruence|reflexivity].
Qed.

Lemma get_set_same (V : Type) (k : string) (v : V) (d : Dict.t V) :
  Dict.get k (Dict.set k v d) = Some v.
Proof. rewrite get_set. now rewrite String.eqb_refl. Qed.

Lemma get_set_other (V : Type) (k k' : string) (v : V) (d : Dict.t V) :
  k' <> k -> Dict.get k (Dict.set k' v d) = Dict.get k d.
Proof.
  intros N. rewrite get_set. now destruct (String.eqb_spec k' k).
Qed.

Lemma get_set_if_same (V : Type) (c : bool) (k : string) (v : V) (d : Dict.t V) :
  Dict.get k (Dict.set_if c k v d) = if c then Some v else Dict.get k d.
Proof. destruct c; simpl; [apply get_set_same|reflexivity]. Qed.

Lemma get_set_if_other (V : Type) (c : bool) (k k' : string) (v : V)
    (d : Dict.t V) :
  k' <> k -> Dict.get k (Dict.set_if c k' v d) = Dict.get k d.
Proof. intros N. destruct c; simpl; [now apply get_set_other|reflexivity]. Qed.

Lemma get_absent (V : Type) (k : string) (d : Dict.t V) :
  ~ In k (map fst d) -> Dict.get k d = None.
Proof.
  induction d as [|[a x] r IH]; simpl; [reflexivity|]. intros N.
  destruct (String.eqb_spec a k) as [->|]; [exfalso; apply N; now left|].
  apply IH. intros Hin. apply N. now right.
Qed.

Lemma get_update_absent (V : Type) (k : string) (e d : Dict.t V) :
  Dict.get k e = None -> Dict.get k (Dict.update d e) = Dict.get k d.
Proof.
  unfold Dict.update. revert d.
  induction e as [|[a x] r IH]; simpl; intros d H; [reflexivity|].
  destruct (String.eqb_spec a k) as [->|N]; [discriminate|].
  rewrite (IH _ H). now apply get_set_other.
Qed.

Lemma get_update_present (V : Type) (k : string) (v : V) (e d : Dict.t V) :
  Dict.wf e -> Dict.get k e = Some v ->
  Dict.get k (Dict.update d e) = Some v.
Proof.
  unfold Dict.update, Dict.wf. revert d.
  induction e as [|[a x] r IH]; simpl; intros d W H; [discriminate|].
  inversion W as [|? ? Hn Hr]; subst.
  destruct (String.eqb_spec a k) as [->|N].
  - injection H as ->.
    change (Dict.get k (Dict.update (Dict.set k v d) r) = Some v).
    rewrite get_update_absent by now apply get_absent.
    apply get_set_same.
  - now apply IH.
Qed.

Lemma mem_false (V : Type) (k : string) (d : Dict.t V) :
  Dict.mem k d = false <-> Dict.get k d = None.
Proof. unfold Dict.mem. destruct (Dict.get k d); split; congruence. Qed.

Lemma get_update (V : Type) (k : string) (e d : Dict.t V) :
  Dict.wf e ->
  Dict.get k (Dict.update d e)
  = match Dict.get k e with
    | Some v => Some v
    | None => Dict.get k d
    end.
Proof.
  intros W. destruct (Dict.get k e) eqn:E.
  - now apply get_update_present.
  - now apply get_update_absent.
Qed.

(** *** URL normalisation *)

(** [_normalize_url] on an input that is there and not empty. *)
Lemma normalize_url_some (url base_url : string) :
  url <> "" ->
  _normalize_url (Some url) base_url =
  let url := Str.strip url in
  if Str.startswith url "//" then "https:" ++ url
  else if Str.startswith url "/" then
    if Str.endswith base_url "/" && Str.startswith url "/"
    then base_url ++ Str.drop1 url else base_url ++ url
  else url.
Proof.
  intros H. unfold _normalize_url. destruct url; [congruence|reflexivity].
Qed.

Ltac rstrip_through :=
  repeat (rewrite rstrip_cons by reflexivity).

Lemma normalize_protocol_relative (s : string) :
  _normalize_url (Some ("//" ++ s)) _STARTPAGE_BASE_URL = "https://" ++ Str.rstrip s.
Proof.
  rewrite normalize_url_some by discriminate. cbv zeta.
  change ("//" ++ s) with (String "/" (String "/" s)).
  rewrite strip_cons by reflexivity. rstrip_through. reflexivity.
Qed.

Lemma startswith_slash_slash (s : string) :
  Str.startswith s "/" = false -> Str.startswith (String "/" s) "//" = false.
Proof. intros H. cbn [Str.startswith] in *. exact H. Qed.

Lemma startswith_two_one (s : string) :
  Str.startswith s "/" = false -> Str.startswith s "//" = false.
Proof.
  destruct s as [|c r]; [reflexivity|]. cbn [Str.startswith].
  rewrite andb_true_r. intros ->. reflexivity.
Qed.

Lemma normalize_root_relative (s : string) :
  Str.startswith s "/" = false ->
  _normalize_url (Some ("/" ++ s)) _STARTPAGE_BASE_URL
  = _STARTPAGE_BASE_URL ++ "/" ++ Str.rstrip s.
Proof.
  intros Hs. rewrite normalize_url_some by discriminate. cbv zeta.
  change ("/" ++ s) with (String "/" s).
  rewrite strip_cons by reflexivity.
  rewrite startswith_slash_slash
    by (rewrite startswith_rstrip by reflexivity; exact Hs).
  reflexivity.
Qed.

Lemma normalize_absolute (u : string) :
  Str.startswith (Str.strip u) "/" = false ->
  _normalize_url (Some u) _STARTPAGE_BASE_URL = Str.strip u.
Proof.
  intros H. destruct (string_dec u "") as [->|N]; [reflexivity|].
  rewrite normalize_url_some by assumption. cbv zeta.
  now rewrite (startswith_two_one _ H), H.
Qed.

Lemma normalize_url_idempotent (u : option string) :
  _normalize_url (Some (_normalize_url u _STARTPAGE_BASE_URL)) _STARTPAGE_BASE_URL
  = _normalize_url u _STARTPAGE_BASE_URL.
Proof.
  destruct u as [u|]; [|reflexivity].
  destruct (string_dec u "") as [->|N]; [reflexivity|].
  rewrite (normalize_url_some _ N). cbv zeta.
  destruct (Str.startswith (Str.strip u) "//") eqn:H2.
  - rewrite normalize_absolute.
    + change ("https:" ++ Str.strip u)
        with (String "h" (String "t" (String "t" (String "p" (String "s"
               (String ":" (Str.strip u))))))).
      rewrite strip_cons by reflexivity. rstrip_through.
      now rewrite rstrip_strip.
    + change ("https:" ++ Str.strip u)
        with (String "h" (String "t" (String "t" (String "p" (String "s"
               (String ":" (Str.strip u))))))).
      rewrite strip_cons by reflexivity. reflexivity.
  - destruct (Str.startswith (Str.strip u) "/") eqn:H1.
    + replace (Str.endswith _STARTPAGE_BASE_URL "/" && true) with false
        by reflexivity.
      rewrite normalize_absolute.
      * unfold _STARTPAGE_BASE_URL. cbn [append].
        rewrite strip_cons by reflexivity. rstrip_through.
        now rewrite rstrip_strip.
      * unfold _STARTPAGE_BASE_URL. cbn [append].
        rewrite strip_cons by reflexivity. reflexivity.
    + rewrite normalize_absolute; rewrite strip_idem; [reflexivity|assumption].
Qed.

(** Normalisation sees its input trimmed. *)
Lemma normalize_url_strip (u base_url : string) :
  _normalize_url (Some u) base_url
  = _normalize_url (Some (Str.strip u)) base_url.
Proof.
  destruct (string_dec u "") as [->|N]; [reflexivity|].
  rewrite (normalize_url_some _ N). cbv zeta.
  destruct (string_dec (Str.strip u) "") as [E|E].
  - rewrite E. reflexivity.
  - rewrite (normalize_url_some _ E). cbv zeta. now rewrite strip_idem.
Qed.

(** C9 (as amended): the input is trimmed first, so a URL and the same URL
    with whitespace around it normalise alike. A protocol-relative URL
    [//s] becomes [https://s] without the trailing whitespace of [s]; a
    root-relative URL [/s] is appended to the base origin, again without
    trailing whitespace; any other URL is returned trimmed, hence unchanged
    when it has no surrounding whitespace; and normalising twice gives what
    normalising once gives, for every input. *)
Theorem normalize_url_spec :
  (forall u, _normalize_url (Some u) _STARTPAGE_BASE_URL
             = _normalize_url (Some (Str.strip u)) _STARTPAGE_BASE_URL)
  /\ (forall s, _normalize_url (Some ("//" ++ s)) _STARTPAGE_BASE_URL
             = "https://" ++ Str.rstrip s)
  /\ (forall s, Str.startswith s "/" = false ->
                _normalize_url (Some ("/" ++ s)) _STARTPAGE_BASE_URL
                = "https://www.startpage.com/" ++ Str.rstrip s)
  /\ (forall u, Str.startswith (Str.strip u) "/" = false ->
                _normalize_url (Some u) _STARTPAGE_BASE_URL = Str.strip u)
  /\ (forall u, trimmed u -> Str.startswith u "/" = false ->
                _normalize_url (Some u) _STARTPAGE_BASE_URL = u)
  /\ (forall u, _normalize_url (Some (_normalize_url u _STARTPAGE_BASE_URL))
                  _STARTPAGE_BASE_URL
                = _normalize_url u _STARTPAGE_BASE_URL).
Proof.
  split; [intros u; apply normalize_url_strip|].
  split; [exact normalize_protocol_relative|].
  split; [exact normalize_root_relative|].
  split; [exact normalize_absolute|].
  split; [|exact normalize_url_idempotent].
  intros u Ht Hs. rewrite normalize_absolute; rewrite Ht; [reflexivity|assumption].
Qed.


(** *** The request builder *)

Lemma build_blank query category language region page results_per_page
    safe_search time_filter size duration latitude longitude radius kwargs :
  Str.strip query = "" ->
  _build_search_params query category language region page results_per_page
    safe_search time_filter size duration latitude longitude radius kwargs
  = Raise (ValueError "Query cannot be empty.").
Proof. intros H. unfold _build_search_params. now rewrite H. Qed.

(** The builder on a query that is not blank: the parameters it computes,
    key by key, with [kwargs] merged over them. *)
Lemma build_base query category language region page results_per_page
    safe_search time_filter size duration latitude longitude radius :
  Str.is_empty (Str.strip query) = false ->
  exists base,
    (forall kwargs,
        _build_search_params query category language region page
          results_per_page safe_search time_filter size duration latitude
          longitude radius kwargs = Ok (Dict.update base kwargs))
    /\ Dict.get "query" base = Some (PStr (Str.strip query))
    /\ Dict.get "cat" base = Some category
    /\ Dict.get "language" base
       = Some (PStr (Dict.get_default language language LANGUAGE_CODES))
    /\ Dict.get "lui" base
       = Some (PStr (Dict.get_default language language LANGUAGE_CODES))
    /\ Dict.get "pl" base
       = Some (PStr (Dict.get_default region region REGION_CODES))
    /\ Dict.get "startat" base
       = Some (PStr (Str.of_int ((page - 1) * results_per_page)))
    /\ Dict.get "ff" base
       = (if py_truthy safe_search
             && negb (py_in_strs category ["news"; "places"])
          then Some (table_get SAFE_SEARCH_LEVELS safe_search (PStr "0"))
          else None)
    /\ Dict.get "with_date" base
       = (if py_truthy time_filter && negb (py_eq_str time_filter "any")
             && py_in_strs category ["web"; "video"; "news"]
          then Some (table_get TIME_FILTERS time_filter time_filter) else None)
    /\ Dict.get "size" base
       = (if py_truthy size && negb (py_eq_str size "any")
             && py_eq_str category "images"
          then Some (table_get IMAGE_SIZES size size) else None)
    /\ Dict.get "duration" base
       = (if py_truthy duration && negb (py_eq_str duration "any")
             && py_eq_str category "video"
          then Some (table_get VIDEO_DURATIONS duration duration) else None)
    /\ Dict.get "latitude" base
       = (if py_is_not_none latitude && py_is_not_none longitude
             && py_eq_str category "places"
          then Some (PStr (py_str latitude)) else None)
    /\ Dict.get "longitude" base
       = (if py_is_not_none latitude && py_is_not_none longitude
             && py_eq_str category "places"
          then Some (PStr (py_str longitude)) else None)
    /\ Dict.get "radius" base
       = (if py_is_not_none radius && py_eq_str category "places"
          then Some (PStr (py_str radius)) else None).
Proof.
  intros Hq. unfold _build_search_params. rewrite Hq. cbv zeta.
  eexists. split; [intros kwargs; reflexivity|].
  repeat split;
    repeat (rewrite get_set_if_other by discriminate);
    try rewrite get_set_if_same;
    repeat (rewrite get_set_if_other by discriminate);
    try reflexivity.
  all: destruct (py_is_not_none latitude && py_is_not_none longitude
                 && py_eq_str category "places"); reflexivity.
Qed.


(** C5: for a query that is not blank the builder succeeds, the parameter
    [query] is the trimmed query and the offset [startat] is
    [(page - 1) * results_per_page] printed in decimal, unless the caller's
    extra parameters, which are merged last, carry a [startat] of their own;
    with the query "  cats  ", page 2 and page size 10 the parameters hold
    the query "cats" and the offset "10"; a blank query raises [ValueError]
    whatever the other parameters are. Python binds a keyword [query] to the
    parameter, so [kwargs] has no such key. *)
Theorem build_query_and_offset :
  (forall query category language region page results_per_page
          safe_search time_filter size duration latitude longitude radius kwargs,
      Str.strip query <> "" -> Dict.wf kwargs -> Dict.mem "query" kwargs = false ->
      exists params,
        _build_search_params query category language region page
          results_per_page safe_search time_filter size duration latitude
          longitude radius kwargs = Ok params
        /\ Dict.get "query" params = Some (PStr (Str.strip query))
        /\ Dict.get "startat" params
           = Some (match Dict.get "startat" kwargs with
                   | Some v => v
                   | None => PStr (Str.of_int ((page - 1) * results_per_page))
                   end))
  /\ (exists params,
        _build_search_params "  cats  " (PStr "web") "en" "all" 2 10
          (PStr "moderate") (PStr "any") PNone PNone PNone PNone PNone []
        = Ok params
        /\ Dict.get "query" params = Some (PStr "cats")
        /\ Dict.get "startat" params = Some (PStr "10"))
  /\ (forall query category language region page results_per_page
             safe_search time_filter size duration latitude longitude radius
             kwargs,
        Str.strip query = "" ->
        _build_search_params query category language region page
          results_per_page safe_search time_filter size duration latitude
          longitude radius kwargs
        = Raise (ValueError "Query cannot be empty.")).
Proof.
  split; [|split].
  - intros query category language region page rpp ss tf size dur lat lon rad
           kwargs Hq W Hk.
    apply is_empty_false in Hq.
    destruct (build_base query category language region page rpp ss tf size
                dur lat lon rad Hq) as (base & E & Gq & _ & _ & _ & _ & Gs & _).
    exists (Dict.update base kwargs). split; [apply E|]. split.
    + rewrite get_update_absent by now apply mem_false. exact Gq.
    + rewrite get_update by assumption. rewrite Gs.
      now destruct (Dict.get "startat" kwargs).
  - eexists. split; [reflexivity|]. split; reflexivity.
  - intros. now apply build_blank.
Qed.

(** C3 (as amended): a language, region, time filter, image size or video
    duration that is not a key of its table is sent as the caller wrote it,
    wherever the builder sends that parameter at all; a safe-search level
    that is not a key of [SAFE_SEARCH_LEVELS] is sent as "0", the moderate
    level. Extra parameters of the same name would replace these values, so
    [kwargs] is taken without them. *)
Theorem unknown_keys_pass_through_except_safe_search
    query category language region page results_per_page safe_search
    time_filter size duration latitude longitude radius kwargs :
  Str.strip query <> "" ->
  (forall k, In k ["language"; "lui"; "pl"; "ff"; "with_date"; "size";
                   "duration"] -> Dict.mem k kwargs = false) ->
  exists params,
    _build_search_params query category language region page results_per_page
      safe_search time_filter size duration latitude longitude radius kwargs
    = Ok params
    /\ (Dict.get language LANGUAGE_CODES = None ->
        Dict.get "language" params = Some (PStr language)
        /\ Dict.get "lui" params = Some (PStr language))
    /\ (Dict.get region REGION_CODES = None ->
        Dict.get "pl" params = Some (PStr region))
    /\ (forall s, time_filter = PStr s -> Dict.get s TIME_FILTERS = None ->
        Dict.get "with_date" params
        = if negb (Str.is_empty s) && py_in_strs category ["web"; "video"; "news"]
          then Some (PStr s) else None)
    /\ (forall s, size = PStr s -> Dict.get s IMAGE_SIZES = None ->
        Dict.get "size" params
        = if negb (Str.is_empty s) && py_eq_str category "images"
          then Some (PStr s) else None)
    /\ (forall s, duration = PStr s -> Dict.get s VIDEO_DURATIONS = None ->
        Dict.get "duration" params
        = if negb (Str.is_empty s) && py_eq_str category "video"
          then Some (PStr s) else None)
    /\ (forall s, safe_search = PStr s -> Dict.get s SAFE_SEARCH_LEVELS = None ->
        Dict.get "ff" params
        = if negb (Str.is_empty s) && negb (py_in_strs category ["news"; "places"])
          then Some (PStr "0") else None).
Proof.
  intros Hq Hk. apply is_empty_false in Hq.
  destruct (build_base query category language region page results_per_page
              safe_search time_filter size duration latitude longitude radius Hq)
    as (base & E & _ & _ & Gl & Gu & Gp & _ & Gf & Gw & Gs & Gd & _).
  exists (Dict.update base kwargs). split; [apply E|].
  rewrite !get_update_absent by (apply mem_false, Hk; in_list).
  assert (Hany : forall (T : Dict.t string) s,
             Dict.get "any" T = Some "" -> Dict.get s T = None ->
             (s =? "any")%string = false).
  { intros T s Ha Hs. destruct (String.eqb_spec s "any") as [->|]; congruence. }
  repeat apply conj.
  - intros H. rewrite Gl, Gu. unfold Dict.get_default. now rewrite H.
  - intros H. rewrite Gp. unfold Dict.get_default. now rewrite H.
  - intros s -> Hs. rewrite Gw. unfold table_get. rewrite Hs.
    cbn [py_truthy py_eq_str]. rewrite (Hany TIME_FILTERS s eq_refl Hs).
    now rewrite andb_true_r.
  - intros s -> Hs. rewrite Gs. unfold table_get. rewrite Hs.
    cbn [py_truthy py_eq_str]. rewrite (Hany IMAGE_SIZES s eq_refl Hs).
    now rewrite andb_true_r.
  - intros s -> Hs. rewrite Gd. unfold table_get. rewrite Hs.
    cbn [py_truthy py_eq_str]. rewrite (Hany VIDEO_DURATIONS s eq_refl Hs).
    now rewrite andb_true_r.
  - intros s -> Hs. rewrite Gf. unfold table_get. rewrite Hs.
    reflexivity.
Qed.

(** *** The transport *)

Lemma wire_respect_delay (w : World) : wire (_respect_delay w) = wire w.
Proof.
  unfold _respect_delay. cbv zeta.
  destruct (PrimFloat.ltb _ _); reflexivity.
Qed.

Lemma request_built url data headers w :
  Request_error url = None ->
  Request url data headers w = Ok (prepare_call url data headers w).
Proof. intros H. unfold Request. now rewrite H. Qed.

Lemma request_error_service (rest : string) :
  Request_error (BASE_URL ++ "/" ++ rest) = None.
Proof. reflexivity. Qed.

(** A call of [_make_request] whose request can be built puts exactly one
    request on the wire. *)
Lemma make_request_wire url data headers w :
  Request_error url = None ->
  wire (snd (_make_request url data headers w))
  = (wire w ++ [prepare_call url data headers (_respect_delay w)])%list.
Proof.
  intros Hr. unfold _make_request. cbv zeta. rewrite request_built by exact Hr.
  assert (R : forall c, wire (record_call c (_respect_delay w))
                        = (wire w ++ [c])%list).
  { intros c. unfold record_call. cbn [wire]. now rewrite wire_respect_delay. }
  destruct (urlopen _ _) as [r|code reason|reason|e].
  - destruct (resp_content_encoding r) as [enc|].
    + destruct (enc =? "gzip")%string.
      * destruct (gzip_decompress _); cbn [snd]; apply R.
      * cbn [snd]; apply R.
    + cbn [snd]; apply R.
  - destruct (code =? 429); cbn [snd]; apply R.
  - cbn [snd]; apply R.
  - cbn [snd]; apply R.
Qed.

(** C6: [_make_request] maps each way it can fail to one error, and sends
    at most one request. When the request cannot be built, nothing is sent
    and the error is [StartpageError] with an unexpected-error message. When
    it can, exactly one request is sent, and: status 429 gives
    [StartpageRateLimitError]; any other status that is not 2xx, which
    [urlopen] raises as [HTTPError], gives [StartpageHTTPError] with that
    status; a [URLError] gives [StartpageError] with a network-error
    message; anything else, a failing decompression of the body included,
    gives [StartpageError] with an unexpected-error message. *)
Theorem make_request_maps_failures url data headers w :
  let req := prepare_call url data headers (_respect_delay w) in
  let outcome := urlopen (wire w) req in
  let out := _make_request url data headers w in
  (forall e,
      Request_error url = Some e ->
      fst out = Raise (StartpageError
                         ("Request failed due to an unexpected error: "
                          ++ exn_str e))
      /\ snd out = _respect_delay w
      /\ wire (snd out) = wire w)
  /\ (Request_error url = None ->
      wire (snd out) = (wire w ++ [req])%list
      /\ (forall reason,
            outcome = RaisedHTTPError 429 reason ->
            fst out = Raise (StartpageRateLimitError
                               ("Rate limit exceeded: 429 " ++ reason)))
      /\ (forall code reason,
            code <> 429 -> outcome = RaisedHTTPError code reason ->
            fst out = Raise (StartpageHTTPError code
                               ("HTTP error: " ++ Str.of_int code ++ " "
                                ++ reason)))
      /\ (forall status reason response,
            ~ (200 <= status < 300) ->
            outcome = http_response status reason response ->
            fst out
            = Raise (if status =? 429
                     then StartpageRateLimitError
                            ("Rate limit exceeded: 429 " ++ reason)
                     else StartpageHTTPError status
                            ("HTTP error: " ++ Str.of_int status ++ " "
                             ++ reason)))
      /\ (forall reason,
            outcome = RaisedURLError reason ->
            fst out = Raise (StartpageError ("Network error: " ++ reason)))
      /\ (forall e,
            outcome = RaisedOther e ->
            fst out = Raise (StartpageError
                               ("Request failed due to an unexpected error: "
                                ++ exn_str e)))
      /\ (forall response e,
            outcome = Responded response ->
            resp_content_encoding response = Some "gzip" ->
            gzip_decompress (resp_content response) = Raise e ->
            fst out = Raise (StartpageError
                               ("Request failed due to an unexpected error: "
                                ++ exn_str e)))).
Proof.
  cbv zeta. split.
  - intros e He. unfold _make_request, Request. cbv zeta. rewrite He.
    cbn [fst snd]. repeat split. apply wire_respect_delay.
  - intros Hr. split; [now apply make_request_wire|].
    unfold _make_request. cbv zeta. rewrite request_built by exact Hr.
    rewrite wire_respect_delay.
    repeat apply conj.
    + intros reason ->. reflexivity.
    + intros code reason N ->.
      destruct (Z.eqb_spec code 429) as [->|_]; [contradiction|reflexivity].
    + intros status reason response N ->. unfold http_response.
      destruct ((200 <=? status) && (status <? 300)) eqn:S.
      * exfalso. apply N. apply andb_true_iff in S. lia.
      * destruct (Z.eqb_spec status 429) as [->|_]; reflexivity.
    + intros reason ->. reflexivity.
    + intros e ->. reflexivity.
    + intros response e -> -> ->. reflexivity.
Qed.

(** *** The dispatcher of the extractor *)

(** C7: [parse_search_results] raises [StartpageParseError] when the page is
    empty and when the category is none of web, images, videos, news and
    places, whatever the page is. For an empty page the message is fixed; for
    an unknown category and a page that is not empty the message wraps the
    description of the cause and is built from the category alone, so nothing
    of the page is in it. *)
Theorem parse_search_results_rejects html search_type :
  html = "" \/ ~ In search_type ["web"; "images"; "videos"; "news"; "places"] ->
  exists msg,
    parse_search_results html search_type = Raise (StartpageParseError msg)
    /\ (html = "" -> msg = "Cannot parse empty HTML content.")
    /\ (html <> "" ->
        msg = "Failed to parse '" ++ search_type
              ++ "' results due to StartpageParseError: "
              ++ "Unknown search type for parsing: " ++ search_type).
Proof.
  intros H. unfold parse_search_results.
  destruct html as [|c html'].
  - eexists. split; [reflexivity|]. split; [reflexivity|congruence].
  - destruct H as [H|H]; [discriminate|].
    cbn [Str.is_empty]. cbv zeta.
    assert (E : forall V (a b c d e : V),
               Dict.get search_type
                 [("web", a); ("images", b); ("videos", c); ("news", d);
                  ("places", e)] = None).
    { intros V a b c0 d e. simpl in H. cbn [Dict.get].
      repeat match goal with
             | |- context [(?k =? search_type)%string] =>
                 destruct (String.eqb_spec k search_type) as [e'|];
                 [exfalso; apply H; rewrite <- e'; in_list|]
             end.
      reflexivity. }
    rewrite E. eexists. split; [reflexivity|]. split; [discriminate|].
    reflexivity.
Qed.

(** *** Instant answers *)

Lemma instant_answers_short_circuit query language kwargs w :
  Str.strip query = "" ->
  instant_answers query language kwargs w
  = (Ok {| instant_answer := None; knowledge_panel := None |}, w).
Proof.
  intros H. unfold instant_answers. rewrite H. reflexivity.
Qed.

(** C10: on a query that is empty or all whitespace [instant_answers]
    returns the bundle with no answer and no panel; it raises nothing and
    the world is as before, so no request went out. *)
Theorem instant_answers_blank_query query language kwargs w :
  Str.strip query = "" ->
  instant_answers query language kwargs w
  = (Ok {| instant_answer := None; knowledge_panel := None |}, w).
Proof. apply instant_answers_short_circuit. Qed.

Lemma startswith_spec (p s : string) :
  Str.startswith s p = true <-> exists b, s = p ++ b.
Proof.
  revert s. induction p as [|a p IH]; intros s; cbn [Str.startswith].
  - split; [intros _; now exists s|reflexivity].
  - destruct s as [|c s].
    + split; [discriminate|intros [b H]; discriminate].
    + rewrite andb_true_iff, IH. split.
      * intros [E [b ->]]. apply Ascii.eqb_eq in E. subst. now exists b.
      * intros [b H]. injection H as -> ->. split; [apply Ascii.eqb_refl|].
        now exists b.
Qed.

(** [Str.contains] is the substring test. *)
Lemma contains_spec (n h : string) :
  Str.contains n h = true <-> exists a b, h = a ++ n ++ b.
Proof.
  split.
  - induction h as [|c r IH]; cbn [Str.contains]; rewrite orb_true_iff.
    + intros [H|H]; [|discriminate].
      apply startswith_spec in H. destruct H as [b ->]. now exists "", b.
    + intros [H|H].
      * apply startswith_spec in H. destruct H as [b ->]. now exists "", b.
      * destruct (IH H) as (a & b & ->). now exists (String c a), b.
  - intros (a & b & ->). induction a as [|c a IH].
    + assert (S : Str.startswith (n ++ b) n = true)
        by (apply startswith_spec; now exists b).
      change ("" ++ n ++ b) with (n ++ b).
      destruct (n ++ b); cbn [Str.contains]; now rewrite S.
    + change (String c a ++ n ++ b) with (String c (a ++ n ++ b)).
      cbn [Str.contains]. rewrite IH. apply orb_true_r.
Qed.

(** The last step of [instant_answers] on an answer and a panel that repeat
    each other. *)
Lemma clear_duplicate_repeat (answer : string) (panel : Panel) :
  answer <> "" -> description panel <> "" ->
  Str.contains answer (description panel) = true
  \/ Str.contains (description panel) answer = true ->
  clear_duplicate (Some answer) (Some panel)
  = if Str.is_empty (title panel)
    then {| instant_answer := Some answer; knowledge_panel := None |}
    else {| instant_answer := None; knowledge_panel := Some panel |}.
Proof.
  intros Ha Hd Hc. unfold clear_duplicate.
  apply is_empty_false in Ha, Hd. rewrite Ha, Hd. cbn [negb andb].
  replace (Str.contains answer (description panel)
           || Str.contains (description panel) answer) with true
    by (symmetry; apply orb_true_iff; exact Hc).
  now destruct (Str.is_empty (title panel)).
Qed.

(** What [instant_answers] returns when it returns: the empty bundle for a
    blank query, and otherwise what the last step makes of the detectors'
    findings on the page that came back. *)
Lemma instant_answers_assembles query language kwargs w bundle w' :
  instant_answers query language kwargs w = (Ok bundle, w') ->
  (Str.strip query = ""
   /\ bundle = {| instant_answer := None; knowledge_panel := None |})
  \/ exists html_content doc,
       BeautifulSoup html_content = Ok doc
       /\ bundle = clear_duplicate
                     (detect_instant_answer doc html_content query)
                     (detect_knowledge_panel doc).
Proof.
  unfold instant_answers.
  destruct (Str.is_empty (Str.strip query)) eqn:Hq.
  - intros H. injection H as <- _. left. split; [|reflexivity].
    now apply is_empty_true.
  - cbv zeta. unfold bind, lift, ret.
    destruct (_make_request _ _ _ w) as [[html|e] w1]; [|discriminate].
    destruct (BeautifulSoup html) as [doc|e] eqn:Hb; [|discriminate].
    intros H. injection H as <- _. right. now exists html, doc.
Qed.

(** C8: a bundle that [instant_answers] returns for a query that is not
    blank is the last step applied to the detected answer and the detected
    panel; and whenever that step gets an answer and a panel with a
    description, neither empty, of which one text contains the other, it
    clears exactly one of the two: the answer when the panel has a title,
    the panel when its title is empty. *)
Theorem instant_answers_clears_duplicate :
  (forall query language kwargs w bundle w',
      Str.strip query <> "" ->
      instant_answers query language kwargs w = (Ok bundle, w') ->
      exists html_content doc,
        BeautifulSoup html_content = Ok doc
        /\ bundle = clear_duplicate
                      (detect_instant_answer doc html_content query)
                      (detect_knowledge_panel doc))
  /\ (forall answer panel,
        answer <> "" -> description panel <> "" ->
        Str.contains answer (description panel) = true
        \/ Str.contains (description panel) answer = true ->
        (title panel <> "" ->
         clear_duplicate (Some answer) (Some panel)
         = {| instant_answer := None; knowledge_panel := Some panel |})
        /\ (title panel = "" ->
            clear_duplicate (Some answer) (Some panel)
            = {| instant_answer := Some answer; knowledge_panel := None |})).
Proof.
  split.
  - intros query language kwargs w bundle w' Hq H.
    destruct (instant_answers_assembles _ _ _ _ H) as [[E _]|R];
      [contradiction|exact R].
  - intros answer panel Ha Hd Hc.
    rewrite (clear_duplicate_repeat panel Ha Hd Hc). split.
    + intros Ht. apply is_empty_false in Ht. now rewrite Ht.
    + intros Ht. now rewrite Ht.
Qed.

(** *** Keyword arguments *)

Lemma repeated_keyword_none (explicit : list string) (kwargs : Dict.t pyval) :
  repeated_keyword explicit kwargs = None
  <-> forall k, In k explicit -> Dict.mem k kwargs = false.
Proof.
  unfold repeated_keyword. split.
  - intros H k Hk.
    destruct (find _ kwargs) as [kv|] eqn:F; [discriminate H|].
    apply mem_false, get_absent. intros Hin.
    apply in_map_iff in Hin. destruct Hin as ([a x] & <- & Hin).
    pose proof (find_none _ _ F _ Hin) as N. cbn [fst] in N.
    assert (T : existsb (String.eqb a) explicit = true).
    { apply existsb_exists. exists a. split; [exact Hk|apply String.eqb_refl]. }
    congruence.
  - intros H. induction kwargs as [|[a x] r IH]; cbn [find fst];
      [reflexivity|].
    destruct (existsb (String.eqb a) explicit) eqn:X.
    + exfalso. apply existsb_exists in X. destruct X as (k & Hk & E).
      apply String.eqb_eq in E. subst k.
      specialize (H a Hk). unfold Dict.mem in H. cbn [Dict.get] in H.
      rewrite String.eqb_refl in H. discriminate H.
    + apply IH. intros k Hk. specialize (H k Hk).
      unfold Dict.mem in H |- *. cbn [Dict.get] in H.
      destruct (a =? k)%string; [discriminate H|exact H].
Qed.

Lemma mem_remaining (bound : list string) (k : string) (kwargs : Dict.t pyval) :
  Dict.mem k (remaining_kwargs bound kwargs)
  = negb (existsb (String.eqb k) bound) && Dict.mem k kwargs.
Proof.
  unfold Dict.mem, remaining_kwargs.
  induction kwargs as [|[a x] r IH]; cbn [filter fst Dict.get].
  - now rewrite andb_false_r.
  - destruct (String.eqb_spec a k) as [->|N].
    + destruct (existsb (String.eqb k) bound); cbn [negb andb].
      * exact IH.
      * cbn [Dict.get]. now rewrite String.eqb_refl.
    + destruct (existsb (String.eqb a) bound); cbn [negb].
      * exact IH.
      * cbn [Dict.get]. destruct (String.eqb_spec a k); [contradiction|].
        exact IH.
Qed.

(** No keyword is passed twice to the builder when the public method passed
    none twice and binds, or keeps back, every parameter of the builder. *)
Lemma remaining_has_no_builder_keyword (passes left : list string)
    (kwargs : Dict.t pyval) :
  repeated_keyword passes kwargs = None ->
  (forall k, In k builder_keywords ->
             In k passes \/ existsb (String.eqb k) left = true) ->
  repeated_keyword builder_keywords (remaining_kwargs left kwargs) = None.
Proof.
  intros Hp Hc. apply repeated_keyword_none. intros k Hk.
  rewrite mem_remaining. destruct (Hc k Hk) as [Hin|Hin].
  - rewrite (proj1 (repeated_keyword_none _ _) Hp k Hin). apply andb_false_r.
  - now rewrite Hin.
Qed.

Ltac builder_keywords_covered :=
  let k := fresh "k" in
  let Hk := fresh "Hk" in
  intros k Hk; cbn [builder_keywords In] in Hk;
  repeat (destruct Hk as [<-|Hk];
          [cbn; first [left; in_list | right; reflexivity]|]);
  contradiction.

(** [_perform_search_request] on a blank query: nothing is sent. *)
Lemma perform_blank query category category_for_parser language region
    safe_search page results_per_page time_filter size duration latitude
    longitude radius kwargs w :
  Str.strip query = "" ->
  repeated_keyword builder_keywords kwargs = None ->
  _perform_search_request query category category_for_parser language region
    safe_search page results_per_page time_filter size duration latitude
    longitude radius kwargs w
  = (Raise (ValueError "Query cannot be empty."), w).
Proof.
  intros Hq Hk. unfold _perform_search_request. rewrite Hk.
  unfold bind, lift. now rewrite build_blank.
Qed.

(** How a public method fails on a blank query, by what its extra keywords
    hold. *)
Lemma blank_outcome (A : Type) (passes : list string) (kwargs : Dict.t pyval)
    (out : result A * World) (w : World) :
  out = (Raise (match repeated_keyword passes kwargs with
                | Some k => multiple_values perform k
                | None => ValueError "Query cannot be empty."
                end), w) ->
  exists e,
    out = (Raise e, w)
    /\ ((forall k, In k passes -> Dict.mem k kwargs = false) ->
        e = ValueError "Query cannot be empty.")
    /\ ((exists k, In k passes /\ Dict.mem k kwargs = true) ->
        exists msg, e = TypeError msg).
Proof.
  intros ->. destruct (repeated_keyword passes kwargs) as [k|] eqn:E.
  - eexists. split; [reflexivity|]. split.
    + intros H. apply repeated_keyword_none in H. congruence.
    + intros _. unfold multiple_values. eauto.
  - eexists. split; [reflexivity|]. split; [reflexivity|].
    intros (k & Hk & Hm).
    rewrite (proj1 (repeated_keyword_none _ _) E k Hk) in Hm. discriminate Hm.
Qed.

(** C2 (as amended): with a query that is blank after trimming, [search],
    [images_search], [videos_search], [news_search], [places_search] and
    [advanced_search] raise before anything is sent, and leave the client
    and the wire as they were. The error is [ValueError] when no extra
    keyword repeats a keyword the method passes on itself; a call that
    repeats one is rejected by the call protocol, with a [TypeError].
    [instant_answers] raises nothing on such a query: it returns the empty
    bundle, also without sending anything. *)
Theorem blank_query_stops_before_network query :
  Str.strip query = "" ->
  (forall language region safe_search time_filter page results_per_page
          kwargs w,
      exists e,
        search query language region safe_search time_filter page
          results_per_page kwargs w = (Raise e, w)
        /\ ((forall k, In k search_passes -> Dict.mem k kwargs = false) ->
            e = ValueError "Query cannot be empty.")
        /\ ((exists k, In k search_passes /\ Dict.mem k kwargs = true) ->
            exists msg, e = TypeError msg))
  /\ (forall language region safe_search size page results_per_page kwargs w,
        exists e,
          images_search query language region safe_search size page
            results_per_page kwargs w = (Raise e, w)
          /\ ((forall k, In k images_search_passes ->
                         Dict.mem k kwargs = false) ->
              e = ValueError "Query cannot be empty.")
          /\ ((exists k, In k images_search_passes
                         /\ Dict.mem k kwargs = true) ->
              exists msg, e = TypeError msg))
  /\ (forall language region safe_search duration time_filter page
             results_per_page kwargs w,
        exists e,
          videos_search query language region safe_search duration
            time_filter page results_per_page kwargs w = (Raise e, w)
          /\ ((forall k, In k videos_search_passes ->
                         Dict.mem k kwargs = false) ->
              e = ValueError "Query cannot be empty.")
          /\ ((exists k, In k videos_search_passes
                         /\ Dict.mem k kwargs = true) ->
              exists msg, e = TypeError msg))
  /\ (forall language region time_filter page results_per_page kwargs w,
        exists e,
          news_search query language region time_filter page
            results_per_page kwargs w = (Raise e, w)
          /\ ((forall k, In k news_search_passes ->
                         Dict.mem k kwargs = false) ->
              e = ValueError "Query cannot be empty.")
          /\ ((exists k, In k news_search_passes
                         /\ Dict.mem k kwargs = true) ->
              exists msg, e = TypeError msg))
  /\ (forall language region latitude longitude radius page results_per_page
             kwargs w,
        exists e,
          places_search query language region latitude longitude radius page
            results_per_page kwargs w = (Raise e, w)
          /\ ((forall k, In k places_search_passes ->
                         Dict.mem k kwargs = false) ->
              e = ValueError "Query cannot be empty.")
          /\ ((exists k, In k places_search_passes
                         /\ Dict.mem k kwargs = true) ->
              exists msg, e = TypeError msg))
  /\ (forall kwargs w,
        advanced_search query kwargs w
        = (Raise (ValueError "Query cannot be empty for advanced search."), w))
  /\ (forall language kwargs w,
        instant_answers query language kwargs w
        = (Ok {| instant_answer := None; knowledge_panel := None |}, w)).
Proof.
  intros Hq. repeat apply conj.
  - intros. apply blank_outcome. unfold search.
    destruct (repeated_keyword search_passes kwargs) eqn:E; [reflexivity|].
    apply perform_blank; [assumption|].
    eapply remaining_has_no_builder_keyword; [exact E|]. builder_keywords_covered.
  - intros. apply blank_outcome. unfold images_search.
    destruct (repeated_keyword images_search_passes kwargs) eqn:E; [reflexivity|].
    apply perform_blank; [assumption|].
    eapply remaining_has_no_builder_keyword; [exact E|]. builder_keywords_covered.
  - intros. apply blank_outcome. unfold videos_search.
    destruct (repeated_keyword videos_search_passes kwargs) eqn:E; [reflexivity|].
    apply perform_blank; [assumption|].
    eapply remaining_has_no_builder_keyword; [exact E|]. builder_keywords_covered.
  - intros. apply blank_outcome. unfold news_search.
    destruct (repeated_keyword news_search_passes kwargs) eqn:E; [reflexivity|].
    apply perform_blank; [assumption|].
    eapply remaining_has_no_builder_keyword; [exact E|]. builder_keywords_covered.
  - intros. apply blank_outcome. unfold places_search.
    destruct (repeated_keyword places_search_passes kwargs) eqn:E; [reflexivity|].
    apply perform_blank; [assumption|].
    eapply remaining_has_no_builder_keyword; [exact E|]. builder_keywords_covered.
  - intros. unfold advanced_search. now rewrite Hq.
  - intros. now apply instant_answers_short_circuit.
Qed.

(** *** The filters of the categories, from the public methods *)

(** The one request of [_perform_search_request] carries the parameters the
    builder returned. *)
Lemma perform_wire query category category_for_parser language region
    safe_search page results_per_page time_filter size duration latitude
    longitude radius kwargs w params :
  repeated_keyword builder_keywords kwargs = None ->
  _build_search_params query category language region page results_per_page
    safe_search time_filter size duration latitude longitude radius kwargs
  = Ok params ->
  params <> [] ->
  exists call,
    wire (snd (_perform_search_request query category category_for_parser
                 language region safe_search page results_per_page
                 time_filter size duration latitude longitude radius kwargs w))
    = (wire w ++ [call])%list
    /\ call_url call = SEARCH_URL
    /\ call_form call = Some params.
Proof.
  intros Hk Hb Hn. unfold _perform_search_request. rewrite Hk.
  unfold bind at 1. unfold lift at 1. rewrite Hb.
  exists (prepare_call SEARCH_URL (Some params) None (_respect_delay w)).
  split; [|split].
  - rewrite <- make_request_wire by reflexivity. unfold bind, lift.
    now destruct (_make_request SEARCH_URL (Some params) None w) as [[h|e] w1].
  - reflexivity.
  - unfold prepare_call. cbn [call_form].
    destruct params; [now contradiction Hn|reflexivity].
Qed.

Lemma set_nonempty (V : Type) (k : string) (v : V) (d : Dict.t V) :
  Dict.set k v d <> [].
Proof.
  destruct d as [|[a x] r]; cbn [Dict.set]; [discriminate|].
  destruct (a =? k)%string; discriminate.
Qed.

Lemma update_nonempty (V : Type) (d e : Dict.t V) :
  d <> [] -> Dict.update d e <> [].
Proof.
  unfold Dict.update. revert d.
  induction e as [|[a x] r IH]; intros d H; cbn [fold_left]; [exact H|].
  apply IH, set_nonempty.
Qed.

(** What a public method puts on the wire: nothing, or one request with the
    parameters of the builder. *)
Lemma perform_sends query category category_for_parser language region
    safe_search page results_per_page time_filter size duration latitude
    longitude radius kwargs w call :
  repeated_keyword builder_keywords kwargs = None ->
  In call (wire (snd (_perform_search_request query category
                        category_for_parser language region safe_search page
                        results_per_page time_filter size duration latitude
                        longitude radius kwargs w))) ->
  In call (wire w)
  \/ exists base,
       call_form call = Some (Dict.update base kwargs)
       /\ Dict.get "size" base
          = (if py_truthy size && negb (py_eq_str size "any")
                && py_eq_str category "images"
             then Some (table_get IMAGE_SIZES size size) else None)
       /\ Dict.get "latitude" base
          = (if py_is_not_none latitude && py_is_not_none longitude
                && py_eq_str category "places"
             then Some (PStr (py_str latitude)) else None)
       /\ Dict.get "longitude" base
          = (if py_is_not_none latitude && py_is_not_none longitude
                && py_eq_str category "places"
             then Some (PStr (py_str longitude)) else None)
       /\ Dict.get "radius" base
          = (if py_is_not_none radius && py_eq_str category "places"
             then Some (PStr (py_str radius)) else None).
Proof.
  intros Hk Hin.
  destruct (Str.is_empty (Str.strip query)) eqn:Hq.
  - apply is_empty_true in Hq.
    rewrite perform_blank in Hin by assumption.
    now left.
  - destruct (build_base query category language region page results_per_page
                safe_search time_filter size duration latitude longitude
                radius Hq)
      as (base & E & Gq & _ & _ & _ & _ & _ & _ & _ & Gs & _ & Ga & Go & Gr).
    assert (Hn : Dict.update base kwargs <> []).
    { apply update_nonempty. intros ->. discriminate Gq. }
    edestruct perform_wire
      with (category_for_parser := category_for_parser) (w := w)
      as (sent & Hw & _ & Hf); [exact Hk|exact (E kwargs)|exact Hn|].
    rewrite Hw in Hin. apply in_app_or in Hin. destruct Hin as [Hin|[<-|[]]].
    + now left.
    + right. exists base. auto.
Qed.

(** Whatever its arguments, [images_search] sends no [size]. *)
Lemma images_search_never_sends_size query language region safe_search size
    page results_per_page kwargs w call :
  In call (wire (snd (images_search query language region safe_search size
                        page results_per_page kwargs w))) ->
  In call (wire w)
  \/ exists form, call_form call = Some form /\ Dict.get "size" form = None.
Proof.
  unfold images_search.
  destruct (repeated_keyword images_search_passes kwargs) eqn:E;
    [intros H; now left|].
  assert (Hk : repeated_keyword builder_keywords
                 (remaining_kwargs
                    ["time_filter"; "duration"; "latitude"; "longitude";
                     "radius"] kwargs) = None).
  { eapply remaining_has_no_builder_keyword; [exact E|].
    builder_keywords_covered. }
  intros Hin.
  apply perform_sends in Hin; [|exact Hk].
  destruct Hin as [H|(base & Hf & Gs & _)]; [now left|].
  right. eexists. split; [exact Hf|].
  rewrite get_update_absent.
  - rewrite Gs. cbn [py_eq_str String.eqb Ascii.eqb Bool.eqb].
    now rewrite andb_false_r.
  - apply mem_false.
    apply (proj1 (repeated_keyword_none _ _) Hk). in_list.
Qed.

(** Whatever its arguments, [places_search] sends no position and no
    radius. *)
Lemma places_search_never_sends_position query language region latitude
    longitude radius page results_per_page kwargs w call :
  In call (wire (snd (places_search query language region latitude longitude
                        radius page results_per_page kwargs w))) ->
  In call (wire w)
  \/ exists form,
       call_form call = Some form
       /\ Dict.get "latitude" form = None
       /\ Dict.get "longitude" form = None
       /\ Dict.get "radius" form = None.
Proof.
  unfold places_search.
  destruct (repeated_keyword places_search_passes kwargs) eqn:E;
    [intros H; now left|].
  assert (Hk : repeated_keyword builder_keywords
                 (remaining_kwargs ["time_filter"; "size"; "duration"] kwargs)
               = None).
  { eapply remaining_has_no_builder_keyword; [exact E|].
    builder_keywords_covered. }
  intros Hin.
  apply perform_sends in Hin; [|exact Hk].
  destruct Hin as [H|(base & Hf & _ & Ga & Go & Gr)]; [now left|].
  right. eexists. split; [exact Hf|].
  rewrite !get_update_absent
    by (apply mem_false; apply (proj1 (repeated_keyword_none _ _) Hk); in_list).
  rewrite Ga, Go, Gr. cbn [py_eq_str String.eqb Ascii.eqb Bool.eqb].
  now rewrite !andb_false_r.
Qed.

(** C1, on the code: [images_search] with the size "large" sends a request
    for the category [pics] whose parameters have no [size]; and
    [places_search] with a latitude, a longitude and a radius sends a request
    for the category [map] whose parameters have none of [latitude],
    [longitude] and [radius]. The builder tests the category against
    "images" and "places", the public methods pass "pics" and "map".
    [videos_search] with the duration "long" does send [duration], as "l":
    there the builder tests against "video", which is what is passed. *)
Theorem images_and_places_filters_are_dropped (w : World) :
  (exists call form,
      wire (snd (images_search "cats" "en" "all" "moderate" "large" 1 20 [] w))
      = (wire w ++ [call])%list
      /\ call_form call = Some form
      /\ Dict.get "cat" form = Some (PStr "pics")
      /\ Dict.get "size" form = None)
  /\ (exists call form,
        wire (snd (places_search "cafe" "en" "all" (PFloat "48.85")
                     (PFloat "2.35") (PInt 500) 1 10 [] w))
        = (wire w ++ [call])%list
        /\ call_form call = Some form
        /\ Dict.get "cat" form = Some (PStr "map")
        /\ Dict.get "latitude" form = None
        /\ Dict.get "longitude" form = None
        /\ Dict.get "radius" form = None)
  /\ (exists call form,
        wire (snd (videos_search "cats" "en" "all" "moderate" "long" "any"
                     1 10 [] w))
        = (wire w ++ [call])%list
        /\ call_form call = Some form
        /\ Dict.get "cat" form = Some (PStr "video")
        /\ Dict.get "duration" form = Some (PStr "l")).
Proof.
  split; [|split].
  - unfold images_search.
    change (repeated_keyword images_search_passes []) with (@None string).
    edestruct perform_wire as (call & Hw & _ & Hf);
      [| | |exists call; eexists; split; [exact Hw|split; [exact Hf|]]];
      [reflexivity|reflexivity|discriminate|].
    split; reflexivity.
  - unfold places_search.
    change (repeated_keyword places_search_passes []) with (@None string).
    edestruct perform_wire as (call & Hw & _ & Hf);
      [| | |exists call; eexists; split; [exact Hw|split; [exact Hf|]]];
      [reflexivity|reflexivity|discriminate|].
    repeat split; reflexivity.
  - unfold videos_search.
    change (repeated_keyword videos_search_passes []) with (@None string).
    edestruct perform_wire as (call & Hw & _ & Hf);
      [| | |exists call; eexists; split; [exact Hw|split; [exact Hf|]]];
      [reflexivity|reflexivity|discriminate|].
    split; reflexivity.
Qed.

(** *** Suggestions *)

(** The JSON path: the scalars of the second element, the first ten of
    them, as they come. *)
Lemma parse_suggestions_json response_text first items rest :
  json_loads response_text = Ok (JList (first :: JList items :: rest)) ->
  parse_suggestions response_text = firstn 10 (scalar_strings items).
Proof.
  intros H. unfold parse_suggestions, _safe_json_loads. now rewrite H.
Qed.

Lemma parse_suggestions_length response_text :
  (length (parse_suggestions response_text) <= 10)%nat.
Proof.
  unfold parse_suggestions. cbv zeta.
  destruct (_safe_json_loads (Some response_text))
    as [[[| | | | |[|first [|[| | | | |items|] rest]]|]|]|];
    try apply firstn_le_length;
    unfold scan_suggestions, rbind;
    destruct (BeautifulSoup response_text); try apply Nat.le_0_l;
    destruct (select_all _ _ _) as [[|]|]; try apply Nat.le_0_l;
    try destruct (soup_find_all_suggest _); try apply Nat.le_0_l;
    apply firstn_le_length.
Qed.

Lemma add_suggestion_nodup suggestions elem :
  NoDup suggestions -> NoDup (add_suggestion suggestions elem).
Proof.
  intros H. unfold add_suggestion. cbv zeta.
  destruct (negb (Str.is_empty (suggestion_text elem))); [|exact H].
  destruct (negb (Str.is_empty (Str.strip (suggestion_text elem)))); [|exact H].
  destruct (existsb _ suggestions) eqn:E; [exact H|]. cbn [negb andb].
  apply NoDup_app; [exact H|constructor; [intros []|constructor]|].
  intros x Hx [<-|[]].
  assert (T : existsb (String.eqb (Str.strip (suggestion_text elem)))
                suggestions = true).
  { apply existsb_exists. exists (Str.strip (suggestion_text elem)).
    split; [exact Hx|apply String.eqb_refl]. }
  congruence.
Qed.

Lemma fold_add_suggestion_nodup elems suggestions :
  NoDup suggestions -> NoDup (fold_left add_suggestion elems suggestions).
Proof.
  revert suggestions. induction elems as [|e r IH]; intros s H; [exact H|].
  apply IH, add_suggestion_nodup, H.
Qed.

Lemma in_firstn (A : Type) (n : nat) (l : list A) (x : A) :
  In x (firstn n l) -> In x l.
Proof.
  revert l. induction n as [|n IH]; intros [|a l]; cbn [firstn In];
    try (intros []; fail).
  intros [H|H]; [now left|right; now apply IH].
Qed.

Lemma firstn_nodup (A : Type) (n : nat) (l : list A) :
  NoDup l -> NoDup (firstn n l).
Proof.
  revert l. induction n as [|n IH]; intros [|a l] H; cbn [firstn];
    try constructor.
  - inversion H as [|? ? Hn Hl]; subst. intros Hin. apply Hn.
    now apply in_firstn in Hin.
  - inversion H; subst. now apply IH.
Qed.

(** The scan of the markup never returns an entry twice. *)
Lemma scan_suggestions_nodup response_text result :
  scan_suggestions response_text [] = Ok result -> NoDup result.
Proof.
  unfold scan_suggestions, rbind.
  destruct (BeautifulSoup response_text); [|discriminate].
  destruct (select_all _ _ _) as [found|]; [|discriminate].
  destruct (match found with [] => _ | _ => _ end) as [elems|]; [|discriminate].
  intros H.
  replace result with (firstn 10 (fold_left add_suggestion elems []))
    by congruence.
  apply firstn_nodup, fold_add_suggestion_nodup. constructor.
Qed.

(** C4, on the code: for a response that [json.loads] reads as a list whose
    second element is the list of the two equal strings [a] and [a],
    [parse_suggestions] returns both: the JSON path caps the list at ten
    and removes nothing, where the scan of the markup skips what it has
    already. *)
Theorem parse_suggestions_json_keeps_duplicates response_text q a :
  json_loads response_text = Ok (JList [JStr q; JList [JStr a; JStr a]]) ->
  parse_suggestions response_text = [a; a]
  /\ ~ NoDup (parse_suggestions response_text).
Proof.
  intros H. rewrite (parse_suggestions_json H). cbn. split; [reflexivity|].
  intros N. inversion N as [|? ? Hn _]; subst. apply Hn. now left.
Qed.

(* ---------------------------------------------------------------- *)
(** ** Further properties of the code *)

(** *** The headers *)

(** [_get_headers] keeps every default header as it is, and adds [Referer]
    exactly when a referer that is not empty is given. *)
Theorem get_headers_keeps_defaults (referer : option string) :
  (forall k, k <> "Referer" ->
             Dict.get k (_get_headers referer) = Dict.get k DEFAULT_HEADERS)
  /\ Dict.get "Referer" (_get_headers referer)
     = (if str_truthy referer then referer else None).
Proof.
  unfold _get_headers, str_truthy. cbv zeta.
  destruct referer as [[|c r]|]; cbn [Str.is_empty negb].
  - split; reflexivity.
  - split; [|apply get_set_same].
    intros k N. apply get_set_other. congruence.
  - split; reflexivity.
Qed.

(** *** URL normalisation, continued *)

Lemma endswith_app (b p : string) : Str.endswith (b ++ p) p = true.
Proof.
  induction b as [|c b IH].
  - destruct p; cbn [append Str.endswith]; now rewrite String.eqb_refl.
  - change (String c b ++ p) with (String c (b ++ p)).
    cbn [Str.endswith]. rewrite IH. apply orb_true_r.
Qed.

(** With the default base the result of [_normalize_url] is never
    root-relative or protocol-relative: it does not begin with a slash, and
    it has no whitespace around it. *)
Theorem normalize_url_never_relative (url : option string) :
  Str.startswith (_normalize_url url _STARTPAGE_BASE_URL) "/" = false
  /\ trimmed (_normalize_url url _STARTPAGE_BASE_URL).
Proof.
  destruct url as [u|]; [|split; reflexivity].
  destruct (string_dec u "") as [->|N]; [split; reflexivity|].
  rewrite (normalize_url_some _ N). cbv zeta. unfold trimmed.
  destruct (Str.startswith (Str.strip u) "//") eqn:H2.
  - split; [reflexivity|].
    change ("https:" ++ Str.strip u)
      with (String "h" (String "t" (String "t" (String "p" (String "s"
             (String ":" (Str.strip u))))))).
    rewrite strip_cons by reflexivity. rstrip_through.
    now rewrite rstrip_strip.
  - destruct (Str.startswith (Str.strip u) "/") eqn:H1.
    + replace (Str.endswith _STARTPAGE_BASE_URL "/" && true) with false
        by reflexivity.
      split; [reflexivity|].
      unfold _STARTPAGE_BASE_URL. cbn [append].
      rewrite strip_cons by reflexivity. rstrip_through.
      now rewrite rstrip_strip.
    + split; [exact H1|apply strip_idem].
Qed.

(** A base that ends with a slash gives no double slash: a root-relative
    URL is joined to [b/] as it is joined to [b]. *)
Theorem normalize_url_trailing_slash_base (b s : string) :
  Str.startswith s "/" = false ->
  _normalize_url (Some ("/" ++ s)) (b ++ "/") = b ++ "/" ++ Str.rstrip s
  /\ (Str.endswith b "/" = false ->
      _normalize_url (Some ("/" ++ s)) b = b ++ "/" ++ Str.rstrip s).
Proof.
  intros Hs.
  assert (E : forall base,
             _normalize_url (Some ("/" ++ s)) base
             = if Str.endswith base "/" && true
               then base ++ Str.rstrip s
               else base ++ String "/" (Str.rstrip s)).
  { intros base. rewrite normalize_url_some by discriminate. cbv zeta.
    change ("/" ++ s) with (String "/" s).
    rewrite strip_cons by reflexivity.
    rewrite startswith_slash_slash
      by (rewrite startswith_rstrip by reflexivity; exact Hs).
    reflexivity. }
  split.
  - rewrite E, endswith_app. cbn [andb].
    induction b as [|c b IH]; [reflexivity|].
    cbn [append]. f_equal. exact IH.
  - intros Hb. rewrite E, Hb. reflexivity.
Qed.

(** *** Text of an element *)

Lemma single_spaced_clean_tail (c : ascii) (r : string) :
  single_spaced (String c r) -> single_spaced r.
Proof. cbn [single_spaced]. now intros [_ H]. Qed.

Lemma collapse_ws_single_spaced (s : string) :
  single_spaced (Str.collapse_ws s).
Proof.
  induction s as [|c r IH]; cbn [Str.collapse_ws]; [exact I|].
  destruct (Str.is_space c) eqn:Hc.
  - destruct r as [|d r']; [cbn; split; [intros _; split; [reflexivity|exact I]|exact I]|].
    destruct (Str.is_space d) eqn:Hd; [exact IH|].
    cbn [single_spaced]. split; [|exact IH].
    intros _. split; [reflexivity|].
    cbn [Str.collapse_ws]. rewrite Hd. cbn [clean_head]. exact Hd.
  - cbn [single_spaced]. split; [|exact IH]. congruence.
Qed.

Lemma lstrip_single_spaced (s : string) :
  single_spaced s -> single_spaced (Str.lstrip s).
Proof.
  induction s as [|c r IH]; cbn [Str.lstrip]; [trivial|].
  intros H. destruct (Str.is_space c); [|exact H].
  apply IH. now apply single_spaced_clean_tail in H.
Qed.

Lemma rstrip_single_spaced (s : string) :
  single_spaced s -> single_spaced (Str.rstrip s).
Proof.
  induction s as [|c r IH]; cbn [Str.rstrip]; [trivial|].
  intros [Hc Hr]. specialize (IH Hr).
  destruct (Str.rstrip r) as [|d r'] eqn:E.
  - destruct (Str.is_space c) eqn:Sc; cbn [single_spaced clean_head];
      [exact I|].
    split; [|exact I]. rewrite Sc. discriminate.
  - cbn [single_spaced]. split; [|exact IH].
    intros Sc. destruct (Hc Sc) as [-> Hh]. split; [reflexivity|].
    destruct r as [|d0 r0]; [discriminate E|].
    cbn [clean_head] in Hh. rewrite rstrip_cons in E by exact Hh.
    injection E as <- _. exact Hh.
Qed.

(** What [_extract_text] returns is clean: no whitespace at either end, and
    inside only single plain spaces, so no tab, line break, non-breaking
    space or run of blanks survives; for a missing element it is the empty
    string. *)
Theorem extract_text_is_clean (bs_element : option tag) :
  trimmed (_extract_text bs_element)
  /\ single_spaced (_extract_text bs_element)
  /\ (bs_element = None -> _extract_text bs_element = "").
Proof.
  destruct bs_element as [e|]; cbn [_extract_text]; cbv zeta.
  - split; [apply strip_trimmed|]. split; [|discriminate].
    apply rstrip_single_spaced, lstrip_single_spaced,
      collapse_ws_single_spaced.
  - repeat split; reflexivity.
Qed.

(** *** The dispatcher of the extractor, continued *)

(** The dispatch of [parse_search_results] on a page that is not empty: the
    extractor of the category, or the error for an unknown category, and
    the wrapping of what that attempt raises. *)
Lemma parse_search_results_dispatch html search_type :
  html <> "" ->
  exists attempt,
    parse_search_results html search_type
    = match attempt with
      | Ok page => Ok page
      | Raise e =>
          Raise (StartpageParseError
                   ("Failed to parse '" ++ search_type ++ "' results due to "
                    ++ exn_type_name e ++ ": " ++ exn_str e))
      end
    /\ ((search_type = "web" /\ attempt = _parse_web_results html)
        \/ (search_type = "images" /\ attempt = _parse_image_results html)
        \/ (search_type = "videos" /\ attempt = _parse_video_results html)
        \/ (search_type = "news" /\ attempt = _parse_news_results html)
        \/ (search_type = "places" /\ attempt = _parse_places_results html)
        \/ (~ In search_type ["web"; "images"; "videos"; "news"; "places"]
            /\ attempt
               = Raise (StartpageParseError
                          ("Unknown search type for parsing: " ++ search_type)))).
Proof.
  intros Hn. unfold parse_search_results. cbv zeta.
  destruct html as [|c h]; [contradiction|]. cbn [Str.is_empty Dict.get].
  destruct (String.eqb_spec "web" search_type) as [<-|N1];
    [eexists; split; [reflexivity|left; split; reflexivity]|].
  destruct (String.eqb_spec "images" search_type) as [<-|N2];
    [eexists; split; [reflexivity|right; left; split; reflexivity]|].
  destruct (String.eqb_spec "videos" search_type) as [<-|N3];
    [eexists; split; [reflexivity|right; right; left; split; reflexivity]|].
  destruct (String.eqb_spec "news" search_type) as [<-|N4];
    [eexists; split; [reflexivity|
       right; right; right; left; split; reflexivity]|].
  destruct (String.eqb_spec "places" search_type) as [<-|N5];
    [eexists; split; [reflexivity|
       right; right; right; right; left; split; reflexivity]|].
  exists (Raise (StartpageParseError
                   ("Unknown search type for parsing: " ++ search_type))).
  split; [reflexivity|].
  right; right; right; right; right. split; [|reflexivity].
  cbn [In]. intros [H|[H|[H|[H|[H|[]]]]]]; congruence.
Qed.

Lemma parse_search_results_raises html search_type e :
  parse_search_results html search_type = Raise e ->
  exists msg, e = StartpageParseError msg.
Proof.
  destruct (string_dec html "") as [->|Hn].
  - intros [= <-]. eauto.
  - destruct (parse_search_results_dispatch search_type Hn)
      as (attempt & E & _).
    rewrite E. destruct attempt; intros [= <-]; eauto.
Qed.

(** [parse_search_results] raises nothing but [StartpageParseError]: the
    failure of a category extractor is wrapped, with the name of its class
    and its text. It returns a page only for a page text that is not empty
    and one of the five categories, and then the page of the extractor of
    that category. *)
Theorem parse_search_results_outcomes html search_type :
  (forall e, parse_search_results html search_type = Raise e ->
             exists msg, e = StartpageParseError msg)
  /\ (forall page,
         parse_search_results html search_type = Ok page ->
         html <> ""
         /\ ((search_type = "web" /\ _parse_web_results html = Ok page)
             \/ (search_type = "images" /\ _parse_image_results html = Ok page)
             \/ (search_type = "videos" /\ _parse_video_results html = Ok page)
             \/ (search_type = "news" /\ _parse_news_results html = Ok page)
             \/ (search_type = "places"
                 /\ _parse_places_results html = Ok page)))
  /\ (forall e,
         html <> "" ->
         (search_type = "web" /\ _parse_web_results html = Raise e)
         \/ (search_type = "images" /\ _parse_image_results html = Raise e)
         \/ (search_type = "videos" /\ _parse_video_results html = Raise e)
         \/ (search_type = "news" /\ _parse_news_results html = Raise e)
         \/ (search_type = "places"
             /\ _parse_places_results html = Raise e) ->
         parse_search_results html search_type
         = Raise (StartpageParseError
                    ("Failed to parse '" ++ search_type ++ "' results due to "
                     ++ exn_type_name e ++ ": " ++ exn_str e))).
Proof.
  destruct (string_dec html "") as [->|Hn].
  - split; [intros e [= <-]; eauto|]. split; [discriminate|]. congruence.
  - destruct (parse_search_results_dispatch search_type Hn)
      as (attempt & E & Hc).
    rewrite E. split; [|split].
    + intros e. destruct attempt; intros [= <-]; eauto.
    + intros page. destruct attempt as [p|e]; [|discriminate].
      intros [= ->]. split; [exact Hn|].
      destruct Hc as [[-> ->]|[[-> ->]|[[-> ->]|[[-> ->]|[[-> ->]|[_ Hc]]]]]];
        auto 10.
      discriminate Hc.
    + intros e _ He.
      assert (A : attempt = Raise e).
      { destruct Hc as [[T ->]|[[T ->]|[[T ->]|[[T ->]|[[T ->]|[T _]]]]]];
          destruct He as [[-> He]|[[-> He]|[[-> He]|[[-> He]|[-> He]]]]];
          try discriminate T; try exact He; exfalso; apply T; in_list. }
      now rewrite A.
Qed.

(** *** The request builder, continued *)

(** Extra parameters are merged last: a key of [kwargs] is in the parameters
    with the caller's value, whatever the builder computed for it, and every
    other key keeps the computed value. *)
Theorem build_extras_override query category language region page
    results_per_page safe_search time_filter size duration latitude longitude
    radius kwargs :
  Str.strip query <> "" -> Dict.wf kwargs ->
  exists computed params,
    _build_search_params query category language region page results_per_page
      safe_search time_filter size duration latitude longitude radius []
    = Ok computed
    /\ _build_search_params query category language region page
         results_per_page safe_search time_filter size duration latitude
         longitude radius kwargs = Ok params
    /\ forall k,
         Dict.get k params
         = match Dict.get k kwargs with
           | Some v => Some v
           | None => Dict.get k computed
           end.
Proof.
  intros Hq W. apply is_empty_false in Hq.
  destruct (build_base query category language region page results_per_page
              safe_search time_filter size duration latitude longitude radius Hq)
    as (base & E & _).
  exists base, (Dict.update base kwargs).
  split; [exact (E [])|]. split; [exact (E kwargs)|].
  intros k. now apply get_update.
Qed.

(** *** Suggestions, continued *)

Lemma add_suggestion_entries suggestions elem :
  Forall (fun s => s <> "" /\ trimmed s) suggestions ->
  Forall (fun s => s <> "" /\ trimmed s) (add_suggestion suggestions elem).
Proof.
  intros H. unfold add_suggestion. cbv zeta.
  destruct (negb (Str.is_empty (suggestion_text elem))); [|exact H].
  destruct (negb (Str.is_empty (Str.strip (suggestion_text elem)))) eqn:E;
    [|exact H].
  destruct (existsb _ suggestions); [exact H|]. cbn [negb andb].
  apply Forall_app. split; [exact H|]. constructor; [|constructor].
  split; [|apply strip_trimmed].
  apply is_empty_false. now apply negb_true_iff in E.
Qed.

Lemma fold_add_suggestion_entries elems suggestions :
  Forall (fun s => s <> "" /\ trimmed s) suggestions ->
  Forall (fun s => s <> "" /\ trimmed s)
    (fold_left add_suggestion elems suggestions).
Proof.
  revert suggestions. induction elems as [|e r IH]; intros s H; [exact H|].
  apply IH, add_suggestion_entries, H.
Qed.

Lemma firstn_forall (A : Type) (P : A -> Prop) (n : nat) (l : list A) :
  Forall P l -> Forall P (firstn n l).
Proof.
  intros H. apply Forall_forall. intros x Hx.
  apply in_firstn in Hx. revert x Hx. now apply Forall_forall.
Qed.

Lemma scan_suggestions_entries response_text result :
  scan_suggestions response_text [] = Ok result ->
  Forall (fun s => s <> "" /\ trimmed s) result.
Proof.
  unfold scan_suggestions, rbind.
  destruct (BeautifulSoup response_text); [|discriminate].
  destruct (select_all _ _ _) as [found|]; [|discriminate].
  destruct (match found with [] => _ | _ => _ end) as [elems|]; [|discriminate].
  intros H.
  replace result with (firstn 10 (fold_left add_suggestion elems []))
    by congruence.
  apply firstn_forall, fold_add_suggestion_entries. constructor.
Qed.

(** When the response is not JSON of the autocomplete shape, what
    [parse_suggestions] returns comes from the scan of the markup: no entry
    twice, every entry not empty and without whitespace around it. *)
Theorem parse_suggestions_scan_is_clean response_text :
  (forall first items rest,
      json_loads response_text <> Ok (JList (first :: JList items :: rest))) ->
  NoDup (parse_suggestions response_text)
  /\ Forall (fun s => s <> "" /\ trimmed s) (parse_suggestions response_text).
Proof.
  intros Hj. unfold parse_suggestions. cbv zeta.
  assert (E : match _safe_json_loads (Some response_text) with
              | Ok (Some (JList (_ :: JList items :: _))) =>
                  Some (firstn 10 (scalar_strings items))
              | _ => None
              end = None).
  { unfold _safe_json_loads.
    destruct (json_loads response_text) as [data|e] eqn:J.
    - destruct data as [| | | | |[|first [|[| | | | |items|] rest]]|];
        try reflexivity.
      exfalso. now apply (Hj first items rest).
    - now destruct (exn_type_name e =? "JSONDecodeError")%string. }
  rewrite E.
  destruct (scan_suggestions response_text []) as [l|e] eqn:S.
  - split; [now apply (scan_suggestions_nodup response_text)|].
    now apply (scan_suggestions_entries response_text).
  - split; constructor.
Qed.

(** [suggestions] on a blank text returns no suggestion and sends nothing.
    On any other text it sends exactly one request, a GET of the
    suggestions URL with the trimmed text and the language code in the
    query string; it then returns at most ten suggestions, or raises what
    the transport raised. *)
Theorem suggestions_sends_one_get query_part language w :
  (Str.strip query_part = "" -> suggestions query_part language w = (Ok [], w))
  /\ (Str.strip query_part <> "" ->
      exists call,
        wire (snd (suggestions query_part language w))
        = (wire w ++ [call])%list
        /\ call_form call = None
        /\ call_url call
           = SUGGESTIONS_URL ++ "?"
             ++ urlencode
                  [ ("q", PStr (Str.strip query_part));
                    ("segment", PStr "startpage.ucp");
                    ("format", PStr "opensearch");
                    ("lang",
                     PStr (Dict.get_default language language LANGUAGE_CODES)) ]
        /\ match fst (suggestions query_part language w) with
           | Ok l => (length l <= 10)%nat
           | Raise e =>
               fst (_make_request (call_url call) None None w) = Raise e
           end).
Proof.
  unfold suggestions. split.
  - intros ->. reflexivity.
  - intros Hq. apply is_empty_false in Hq. rewrite Hq. cbv zeta.
    eexists (prepare_call _ None None (_respect_delay w)).
    split; [|split; [reflexivity|split; [reflexivity|]]].
    + rewrite <- make_request_wire by reflexivity. unfold bind, ret.
      now destruct (_make_request _ None None w) as [[t|e] w1].
    + cbn [call_url prepare_call]. unfold bind, ret.
      destruct (_make_request _ None None w) as [[t|e] w1]; cbn [fst].
      * apply parse_suggestions_length.
      * reflexivity.
Qed.

(** *** What the search methods raise and send *)

Lemma make_request_raises_client_errors url data headers w e :
  fst (_make_request url data headers w) = Raise e -> raised_by_client e.
Proof.
  unfold _make_request. cbv zeta.
  destruct (Request url data headers (_respect_delay w)) as [req|x];
    [|cbn [fst]; intros [= <-]; exact I].
  destruct (urlopen _ _) as [r|code reason|reason|x].
  - destruct (resp_content_encoding r) as [enc|];
      [destruct (enc =? "gzip")%string; [destruct (gzip_decompress _)|]|];
      cbn [fst]; intros [= <-] || discriminate; exact I.
  - destruct (code =? 429); cbn [fst]; intros [= <-]; exact I.
  - cbn [fst]. intros [= <-]. exact I.
  - cbn [fst]. intros [= <-]. exact I.
Qed.

(** [_perform_search_request] raises only errors of the client, and puts
    nothing or one request to the search URL on the wire. *)
Lemma perform_outcomes query category category_for_parser language region
    safe_search page results_per_page time_filter size duration latitude
    longitude radius kwargs w :
  let out := _perform_search_request query category category_for_parser
               language region safe_search page results_per_page time_filter
               size duration latitude longitude radius kwargs w in
  (forall e, fst out = Raise e -> raised_by_client e)
  /\ (snd out = w
      \/ exists call,
           wire (snd out) = (wire w ++ [call])%list
           /\ call_url call = SEARCH_URL).
Proof.
  cbv zeta. unfold _perform_search_request.
  destruct (repeated_keyword builder_keywords kwargs) eqn:Hk.
  - split; [intros e [= <-]; exact I|now left].
  - unfold bind at 1. unfold lift at 1.
    destruct (_build_search_params _ _ _ _ _ _ _ _ _ _ _ _ _ _)
      as [params|x] eqn:Hb.
    + split.
      * unfold bind, lift.
        destruct (_make_request SEARCH_URL (Some params) None w)
          as [[html|x] w1] eqn:Hm; cbn [fst].
        -- intros e He.
           destruct (parse_search_results_raises _ _ He) as [msg ->].
           exact I.
        -- intros e [= <-].
           apply (make_request_raises_client_errors SEARCH_URL (Some params)
                    None w). now rewrite Hm.
      * right. exists (prepare_call SEARCH_URL (Some params) None
                         (_respect_delay w)).
        split; [|reflexivity].
        rewrite <- make_request_wire by reflexivity. unfold bind, lift.
        now destruct (_make_request SEARCH_URL (Some params) None w)
          as [[h|x] w1].
    + split; [|now left]. cbn [fst]. intros e [= <-].
      unfold _build_search_params in Hb.
      destruct (Str.is_empty (Str.strip query)); [|discriminate Hb].
      injection Hb as <-. exact I.
Qed.

(** The five search methods raise only errors of the client: [ValueError]
    or [TypeError] for a bad call, or one of the errors of the [exceptions]
    module; what a library raises never comes through as it is. Each call
    leaves the client as it was, or sends exactly one request, to the search
    URL. *)
Theorem search_methods_raise_client_errors_only w :
  (forall query language region safe_search time_filter page results_per_page
          kwargs,
      let out := search query language region safe_search time_filter page
                   results_per_page kwargs w in
      (forall e, fst out = Raise e -> raised_by_client e)
      /\ (snd out = w
          \/ exists call, wire (snd out) = (wire w ++ [call])%list
                          /\ call_url call = SEARCH_URL))
  /\ (forall query language region safe_search size page results_per_page
             kwargs,
        let out := images_search query language region safe_search size page
                     results_per_page kwargs w in
        (forall e, fst out = Raise e -> raised_by_client e)
        /\ (snd out = w
            \/ exists call, wire (snd out) = (wire w ++ [call])%list
                            /\ call_url call = SEARCH_URL))
  /\ (forall query language region safe_search duration time_filter page
             results_per_page kwargs,
        let out := videos_search query language region safe_search duration
                     time_filter page results_per_page kwargs w in
        (forall e, fst out = Raise e -> raised_by_client e)
        /\ (snd out = w
            \/ exists call, wire (snd out) = (wire w ++ [call])%list
                            /\ call_url call = SEARCH_URL))
  /\ (forall query language region time_filter page results_per_page kwargs,
        let out := news_search query language region time_filter page
                     results_per_page kwargs w in
        (forall e, fst out = Raise e -> raised_by_client e)
        /\ (snd out = w
            \/ exists call, wire (snd out) = (wire w ++ [call])%list
                            /\ call_url call = SEARCH_URL))
  /\ (forall query language region latitude longitude radius page
             results_per_page kwargs,
        let out := places_search query language region latitude longitude
                     radius page results_per_page kwargs w in
        (forall e, fst out = Raise e -> raised_by_client e)
        /\ (snd out = w
            \/ exists call, wire (snd out) = (wire w ++ [call])%list
                            /\ call_url call = SEARCH_URL)).
Proof.
  repeat apply conj; intros; subst out.
  - unfold search.
    destruct (repeated_keyword search_passes kwargs);
      [split; [intros e [= <-]; exact I|now left]|apply perform_outcomes].
  - unfold images_search.
    destruct (repeated_keyword images_search_passes kwargs);
      [split; [intros e [= <-]; exact I|now left]|apply perform_outcomes].
  - unfold videos_search.
    destruct (repeated_keyword videos_search_passes kwargs);
      [split; [intros e [= <-]; exact I|now left]|apply perform_outcomes].
  - unfold news_search.
    destruct (repeated_keyword news_search_passes kwargs);
      [split; [intros e [= <-]; exact I|now left]|apply perform_outcomes].
  - unfold places_search.
    destruct (repeated_keyword places_search_passes kwargs);
      [split; [intros e [= <-]; exact I|now left]|apply perform_outcomes].
Qed.

(** A request of [_perform_search_request] carries what the builder
    computed, with [kwargs] merged over it. *)
Lemma perform_sends_base query category category_for_parser language region
    safe_search page results_per_page time_filter size duration latitude
    longitude radius kwargs w call :
  repeated_keyword builder_keywords kwargs = None ->
  In call (wire (snd (_perform_search_request query category
                        category_for_parser language region safe_search page
                        results_per_page time_filter size duration latitude
                        longitude radius kwargs w))) ->
  In call (wire w)
  \/ exists base,
       call_form call = Some (Dict.update base kwargs)
       /\ call_url call = SEARCH_URL
       /\ Str.is_empty (Str.strip query) = false
       /\ forall kw,
            _build_search_params query category language region page
              results_per_page safe_search time_filter size duration latitude
              longitude radius kw = Ok (Dict.update base kw).
Proof.
  intros Hk Hin.
  destruct (Str.is_empty (Str.strip query)) eqn:Hq.
  - apply is_empty_true in Hq.
    rewrite perform_blank in Hin by assumption. now left.
  - destruct (build_base query category language region page results_per_page
                safe_search time_filter size duration latitude longitude
                radius Hq) as (base & E & Gq & _).
    assert (Hn : Dict.update base kwargs <> []).
    { apply update_nonempty. intros ->. discriminate Gq. }
    edestruct perform_wire
      with (category_for_parser := category_for_parser) (w := w)
      as (sent & Hw & Hu & Hf); [exact Hk|exact (E kwargs)|exact Hn|].
    rewrite Hw in Hin. apply in_app_or in Hin. destruct Hin as [Hin|[<-|[]]].
    + now left.
    + right. exists base. auto.
Qed.

(** The page size in the base of the builder. *)
Lemma build_base_num query category language region page results_per_page
    safe_search time_filter size duration latitude longitude radius :
  Str.is_empty (Str.strip query) = false ->
  exists base,
    (forall kwargs,
        _build_search_params query category language region page
          results_per_page safe_search time_filter size duration latitude
          longitude radius kwargs = Ok (Dict.update base kwargs))
    /\ Dict.get "num" base
       = (if py_eq_str category "web"
          then Some (PStr (Str.of_int results_per_page)) else None).
Proof.
  intros Hq. unfold _build_search_params. rewrite Hq. cbv zeta.
  eexists. split; [intros kwargs; reflexivity|].
  repeat (rewrite get_set_if_other by discriminate).
  rewrite get_set_if_same.
  repeat (rewrite get_set_if_other by discriminate).
  reflexivity.
Qed.

(** The base of the builder is determined by the arguments. *)
Lemma build_base_unique query category language region page results_per_page
    safe_search time_filter size duration latitude longitude radius base base' :
  (forall kw,
      _build_search_params query category language region page
        results_per_page safe_search time_filter size duration latitude
        longitude radius kw = Ok (Dict.update base kw)) ->
  (forall kw,
      _build_search_params query category language region page
        results_per_page safe_search time_filter size duration latitude
        longitude radius kw = Ok (Dict.update base' kw)) ->
  base = base'.
Proof.
  intros E E'. specialize (E []). specialize (E' []).
  rewrite E in E'. now injection E'.
Qed.

Lemma mem_remaining_absent (bound : list string) (k : string)
    (kwargs : Dict.t pyval) :
  Dict.mem k kwargs = false ->
  Dict.get k (remaining_kwargs bound kwargs) = None.
Proof.
  intros H. apply mem_false. rewrite mem_remaining, H. apply andb_false_r.
Qed.

(** The page size and the safe-search level in a request of
    [_perform_search_request]: no [num] unless the category is [web], no
    [ff] when the level is missing or the category is [news] or [places];
    each unless [kwargs] brings the key. *)
Lemma perform_gates query category category_for_parser language region
    safe_search page results_per_page time_filter size duration latitude
    longitude radius kwargs w call :
  repeated_keyword builder_keywords kwargs = None ->
  In call (wire (snd (_perform_search_request query category
                        category_for_parser language region safe_search page
                        results_per_page time_filter size duration latitude
                        longitude radius kwargs w))) ->
  In call (wire w)
  \/ exists form,
       call_form call = Some form
       /\ (Dict.get "num" kwargs = None -> py_eq_str category "web" = false ->
           Dict.get "num" form = None)
       /\ (Dict.get "ff" kwargs = None ->
           py_truthy safe_search
           && negb (py_in_strs category ["news"; "places"]) = false ->
           Dict.get "ff" form = None).
Proof.
  intros Hk Hin. apply perform_sends_base in Hin; [|exact Hk].
  destruct Hin as [H|(base & Hf & _ & Hq & E)]; [now left|].
  right. exists (Dict.update base kwargs). split; [exact Hf|].
  destruct (build_base query category language region page results_per_page
              safe_search time_filter size duration latitude longitude
              radius Hq) as (b1 & E1 & _ & _ & _ & _ & _ & _ & Gf & _).
  destruct (build_base_num query category language region page
              results_per_page safe_search time_filter size duration latitude
              longitude radius Hq) as (b2 & E2 & Gn).
  assert (B1 : b1 = base) by (eapply build_base_unique; [exact E1|exact E]).
  assert (B2 : b2 = base) by (eapply build_base_unique; [exact E2|exact E]).
  subst b1 b2.
  split.
  - intros Hn Hc. rewrite get_update_absent by exact Hn.
    now rewrite Gn, Hc.
  - intros Hn Hc. rewrite get_update_absent by exact Hn.
    now rewrite Gf, Hc.
Qed.

(** [news_search] and [places_search] send no safe-search level and no page
    size; [images_search] and [videos_search] send no page size: [ff] goes
    out for web, image and video searches only and [num] for web searches
    only, unless the caller passes the key as an extra parameter. *)
Theorem page_size_and_safe_search_only_where_meant w call :
  (forall query language region time_filter page results_per_page kwargs,
      In call (wire (snd (news_search query language region time_filter page
                            results_per_page kwargs w))) ->
      In call (wire w)
      \/ exists form,
           call_form call = Some form
           /\ (Dict.mem "num" kwargs = false -> Dict.get "num" form = None)
           /\ (Dict.mem "ff" kwargs = false -> Dict.get "ff" form = None))
  /\ (forall query language region latitude longitude radius page
             results_per_page kwargs,
        In call (wire (snd (places_search query language region latitude
                              longitude radius page results_per_page kwargs
                              w))) ->
        In call (wire w)
        \/ exists form,
             call_form call = Some form
             /\ (Dict.mem "num" kwargs = false -> Dict.get "num" form = None)
             /\ (Dict.mem "ff" kwargs = false -> Dict.get "ff" form = None))
  /\ (forall query language region safe_search size page results_per_page
             kwargs,
        In call (wire (snd (images_search query language region safe_search
                              size page results_per_page kwargs w))) ->
        In call (wire w)
        \/ exists form,
             call_form call = Some form
             /\ (Dict.mem "num" kwargs = false -> Dict.get "num" form = None))
  /\ (forall query language region safe_search duration time_filter page
             results_per_page kwargs,
        In call (wire (snd (videos_search query language region safe_search
                              duration time_filter page results_per_page
                              kwargs w))) ->
        In call (wire w)
        \/ exists form,
             call_form call = Some form
             /\ (Dict.mem "num" kwargs = false -> Dict.get "num" form = None)).
Proof.
  repeat apply conj; intros.
  - unfold news_search in H.
    destruct (repeated_keyword news_search_passes kwargs) eqn:E;
      [now left|].
    apply perform_gates in H;
      [|eapply remaining_has_no_builder_keyword;
        [exact E|builder_keywords_covered]].
    destruct H as [H|(form & Hf & Hnum & Hff)]; [now left|].
    right. exists form. split; [exact Hf|]. split; intros Hm.
    + apply Hnum; [now apply mem_remaining_absent|reflexivity].
    + apply Hff; [now apply mem_remaining_absent|reflexivity].
  - unfold places_search in H.
    destruct (repeated_keyword places_search_passes kwargs) eqn:E;
      [now left|].
    apply perform_gates in H;
      [|eapply remaining_has_no_builder_keyword;
        [exact E|builder_keywords_covered]].
    destruct H as [H|(form & Hf & Hnum & Hff)]; [now left|].
    right. exists form. split; [exact Hf|]. split; intros Hm.
    + apply Hnum; [now apply mem_remaining_absent|reflexivity].
    + apply Hff; [now apply mem_remaining_absent|reflexivity].
  - unfold images_search in H.
    destruct (repeated_keyword images_search_passes kwargs) eqn:E;
      [now left|].
    apply perform_gates in H;
      [|eapply remaining_has_no_builder_keyword;
        [exact E|builder_keywords_covered]].
    destruct H as [H|(form & Hf & Hnum & _)]; [now left|].
    right. exists form. split; [exact Hf|]. intros Hm.
    apply Hnum; [now apply mem_remaining_absent|reflexivity].
  - unfold videos_search in H.
    destruct (repeated_keyword videos_search_passes kwargs) eqn:E;
      [now left|].
    apply perform_gates in H;
      [|eapply remaining_has_no_builder_keyword;
        [exact E|builder_keywords_covered]].
    destruct H as [H|(form & Hf & Hnum & _)]; [now left|].
    right. exists form. split; [exact Hf|]. intros Hm.
    apply Hnum; [now apply mem_remaining_absent|reflexivity].
Qed.

(** What [search] sends for a query that is not blank: one request to the
    search URL with the trimmed query, the category [web], the page size, the
    offset of the page, the code of the time filter unless it is "any" or
    empty, and the code of the safe-search level unless it is empty; each
    unless the caller's extra parameters bring the same key. *)
Theorem search_request query language region safe_search time_filter page
    results_per_page kwargs w call :
  (forall k, In k ["cat"; "num"; "startat"; "with_date"; "ff"] ->
             Dict.mem k kwargs = false) ->
  In call (wire (snd (search query language region safe_search time_filter
                        page results_per_page kwargs w))) ->
  In call (wire w)
  \/ exists form,
       call_form call = Some form
       /\ call_url call = SEARCH_URL
       /\ Dict.get "query" form = Some (PStr (Str.strip query))
       /\ Dict.get "cat" form = Some (PStr "web")
       /\ Dict.get "num" form = Some (PStr (Str.of_int results_per_page))
       /\ Dict.get "startat" form
          = Some (PStr (Str.of_int ((page - 1) * results_per_page)))
       /\ Dict.get "with_date" form
          = (if negb (Str.is_empty time_filter)
                && negb (time_filter =? "any")%string
             then Some (PStr (Dict.get_default time_filter time_filter
                                TIME_FILTERS))
             else None)
       /\ Dict.get "ff" form
          = (if negb (Str.is_empty safe_search)
             then Some (PStr (Dict.get_default safe_search "0"
                                SAFE_SEARCH_LEVELS))
             else None).
Proof.
  intros Hx Hin. unfold search in Hin.
  destruct (repeated_keyword search_passes kwargs) eqn:E; [now left|].
  assert (Hk : repeated_keyword builder_keywords
                 (remaining_kwargs
                    ["size"; "duration"; "latitude"; "longitude"; "radius"]
                    kwargs) = None).
  { eapply remaining_has_no_builder_keyword;
      [exact E|builder_keywords_covered]. }
  apply perform_sends_base in Hin; [|exact Hk].
  destruct Hin as [H|(base & Hf & Hu & Hq & Eb)]; [now left|].
  right. eexists. split; [exact Hf|]. split; [exact Hu|].
  destruct (build_base query (PStr "web") language region page
              results_per_page (PStr safe_search) (PStr time_filter)
              (keyword_or_default "size" PNone kwargs)
              (keyword_or_default "duration" PNone kwargs)
              (keyword_or_default "latitude" PNone kwargs)
              (keyword_or_default "longitude" PNone kwargs)
              (keyword_or_default "radius" PNone kwargs) Hq)
    as (base' & Eb' & Gq & Gc & _ & _ & _ & Gs & Gf & Gw & _).
  assert (B : base = base')
    by (eapply build_base_unique; [exact Eb|exact Eb']).
  subst base.
  assert (Gn : Dict.get "num" base'
               = Some (PStr (Str.of_int results_per_page))).
  { destruct (build_base_num query (PStr "web") language region page
                results_per_page (PStr safe_search) (PStr time_filter)
                (keyword_or_default "size" PNone kwargs)
                (keyword_or_default "duration" PNone kwargs)
                (keyword_or_default "latitude" PNone kwargs)
                (keyword_or_default "longitude" PNone kwargs)
                (keyword_or_default "radius" PNone kwargs) Hq)
      as (b2 & E2 & G2).
    assert (B2 : b2 = base')
      by (eapply build_base_unique; [exact E2|exact Eb']).
    subst b2. exact G2. }
  assert (Hquery : Dict.mem "query" kwargs = false).
  { apply (proj1 (repeated_keyword_none _ _) E). in_list. }
  rewrite !get_update_absent
    by (apply mem_remaining_absent; first [exact Hquery|apply Hx; in_list]).
  rewrite Gq, Gc, Gn, Gs, Gw, Gf.
  repeat (split; [reflexivity|]).
  cbn [py_truthy py_eq_str py_in_strs existsb String.eqb Ascii.eqb Bool.eqb
       orb negb andb].
  rewrite !andb_true_r. unfold table_get, Dict.get_default.
  split.
  - destruct (negb (Str.is_empty time_filter)
              && negb (time_filter =? "any")%string); [|reflexivity].
    now destruct (Dict.get time_filter TIME_FILTERS).
  - destruct (negb (Str.is_empty safe_search)); [|reflexivity].
    now destruct (Dict.get safe_search SAFE_SEARCH_LEVELS).
Qed.

(** *** Instant answers, continued *)

(** On a query that is not blank [instant_answers] sends exactly one
    request: a POST to the search URL with the trimmed query and the
    category [web], unless extra parameters replace them. What the transport
    raises comes through as it is. *)
Theorem instant_answers_sends_one_post query language kwargs w :
  Str.strip query <> "" ->
  exists call form,
    wire (snd (instant_answers query language kwargs w))
    = (wire w ++ [call])%list
    /\ call_url call = SEARCH_URL
    /\ call_form call = Some form
    /\ (Dict.get "query" kwargs = None ->
        Dict.get "query" form = Some (PStr (Str.strip query)))
    /\ (Dict.get "cat" kwargs = None ->
        Dict.get "cat" form = Some (PStr "web"))
    /\ (forall e,
           fst (_make_request SEARCH_URL (Some form) None w) = Raise e ->
           fst (instant_answers query language kwargs w) = Raise e).
Proof.
  intros Hq. apply is_empty_false in Hq. unfold instant_answers.
  rewrite Hq. cbv zeta.
  set (form := Dict.update _ kwargs).
  assert (Hn : form <> []).
  { apply update_nonempty. discriminate. }
  exists (prepare_call SEARCH_URL (Some form) None (_respect_delay w)), form.
  split; [|split; [reflexivity|split; [|split; [|split]]]].
  - rewrite <- make_request_wire by reflexivity. unfold bind, lift, ret.
    destruct (_make_request SEARCH_URL (Some form) None w) as [[h|e] w1];
      [|reflexivity].
    now destruct (BeautifulSoup h).
  - unfold prepare_call. cbn [call_form].
    destruct form; [now contradiction Hn|reflexivity].
  - intros H. unfold form. now rewrite get_update_absent by exact H.
  - intros H. unfold form. now rewrite get_update_absent by exact H.
  - intros e He. unfold bind.
    destruct (_make_request SEARCH_URL (Some form) None w) as [[h|x] w1];
      [discriminate He|].
    cbn [fst] in He |- *. now injection He as ->.
Qed.

(** The last step of [instant_answers] invents nothing and never clears
    both: each part of the bundle is what was detected or nothing, the
    bundle is empty only when nothing was detected, and when neither text
    contains the other both parts are kept. *)
Theorem clear_duplicate_keeps_something (answer : option string)
    (panel : option Panel) :
  let bundle := clear_duplicate answer panel in
  (instant_answer bundle = answer \/ instant_answer bundle = None)
  /\ (knowledge_panel bundle = panel \/ knowledge_panel bundle = None)
  /\ (instant_answer bundle = None -> knowledge_panel bundle = None ->
      answer = None /\ panel = None)
  /\ (forall a p,
         answer = Some a -> panel = Some p ->
         Str.contains a (description p) = false ->
         Str.contains (description p) a = false ->
         bundle = {| instant_answer := answer; knowledge_panel := panel |}).
Proof.
  cbv zeta. unfold clear_duplicate.
  destruct answer as [a|], panel as [p|];
    try (cbn [instant_answer knowledge_panel];
         repeat split; auto; discriminate).
  destruct (negb (Str.is_empty a) && negb (Str.is_empty (description p)));
    [|cbn [instant_answer knowledge_panel]; repeat split; auto; discriminate].
  destruct (Str.contains a (description p)
            || Str.contains (description p) a) eqn:C.
  - destruct (negb (Str.is_empty (title p)));
      cbn [instant_answer knowledge_panel];
      repeat split; auto; try discriminate;
      intros a0 p0 [= <-] [= <-] C1 C2; rewrite C1, C2 in C; discriminate C.
  - cbn [instant_answer knowledge_panel]; repeat split; auto; discriminate.
Qed.


(** *** Advanced search *)

Lemma get_in_values (V : Type) (k : string) (v : V) (d : Dict.t V) :
  Dict.get k d = Some v -> In v (map snd d).
Proof.
  induction d as [|[a x] r IH]; simpl; [discriminate|].
  destruct (a =? k)%string; [intros [= ->]; now left|].
  intros H. right. now apply IH.
Qed.

Lemma get_none_in (V : Type) (k key : string) (v : V) (d : Dict.t V) :
  Dict.get k d = None -> In (key, v) d -> key <> k.
Proof.
  induction d as [|[a x] r IH]; simpl; [intros _ []|].
  destruct (String.eqb_spec a k) as [->|N]; [discriminate|].
  intros H [[= -> ->]|Hin]; [exact N|now apply IH].
Qed.

Lemma get_remove_same (V : Type) (k : string) (d : Dict.t V) :
  Dict.get k (Dict.remove k d) = None.
Proof.
  induction d as [|[a x] r IH]; simpl; [reflexivity|].
  destruct (a =? k)%string eqn:E; [exact IH|]. simpl. now rewrite E.
Qed.

Lemma get_remove_other (V : Type) (k k' : string) (d : Dict.t V) :
  k' <> k -> Dict.get k (Dict.remove k' d) = Dict.get k d.
Proof.
  intros N. induction d as [|[a x] r IH]; simpl; [reflexivity|].
  destruct (String.eqb_spec a k') as [->|Na].
  - rewrite IH. now destruct (String.eqb_spec k' k).
  - simpl. now rewrite IH.
Qed.

Lemma in_keys_set (V : Type) (a k : string) (v : V) (d : Dict.t V) :
  In a (map fst (Dict.set k v d)) -> a = k \/ In a (map fst d).
Proof.
  induction d as [|[b x] r IH]; simpl.
  - intros [<-|[]]. now left.
  - destruct (String.eqb_spec b k) as [->|N]; simpl.
    + intros [<-|H]; [now left|right; now right].
    + intros [<-|H]; [right; now left|].
      destruct (IH H) as [->|Hr]; [now left|right; now right].
Qed.

Lemma wf_set (V : Type) (k : string) (v : V) (d : Dict.t V) :
  Dict.wf d -> Dict.wf (Dict.set k v d).
Proof.
  unfold Dict.wf. induction d as [|[b x] r IH]; simpl; intros W.
  - constructor; [intros []|constructor].
  - inversion W as [|? ? Hn Hr]; subst.
    destruct (String.eqb_spec b k) as [->|N]; simpl.
    + now constructor.
    + constructor; [|now apply IH].
      intros Hin. apply in_keys_set in Hin. destruct Hin as [->|Hin];
        [now apply N|now apply Hn].
Qed.

Lemma in_keys_remove (V : Type) (a k : string) (d : Dict.t V) :
  In a (map fst (Dict.remove k d)) -> In a (map fst d).
Proof.
  induction d as [|[b x] r IH]; simpl; [intros []|].
  destruct (b =? k)%string; simpl.
  - intros H. right. now apply IH.
  - intros [<-|H]; [now left|right; now apply IH].
Qed.

Lemma wf_remove (V : Type) (k : string) (d : Dict.t V) :
  Dict.wf d -> Dict.wf (Dict.remove k d).
Proof.
  unfold Dict.wf. induction d as [|[b x] r IH]; simpl; intros W;
    [constructor|].
  inversion W as [|? ? Hn Hr]; subst.
  destruct (b =? k)%string; simpl; [now apply IH|].
  constructor; [|now apply IH].
  intros Hin. apply Hn. now apply in_keys_remove in Hin.
Qed.

Lemma wf_map_advanced (params : Dict.t pyval) (item : string * pyval) :
  Dict.wf params -> Dict.wf (map_advanced params item).
Proof.
  intros W. destruct item as [key value]. unfold map_advanced.
  destruct (Dict.get key ADVANCED_SEARCH_PARAMS); [now apply wf_set|].
  destruct (Dict.mem key params); [now apply wf_set|exact W].
Qed.

Lemma wf_fold_map_advanced (kwargs params : Dict.t pyval) :
  Dict.wf params -> Dict.wf (fold_left map_advanced kwargs params).
Proof.
  revert params. induction kwargs as [|item r IH]; intros params W;
    cbn [fold_left]; [exact W|].
  now apply IH, wf_map_advanced.
Qed.

(** A key that is not a wire name of [ADVANCED_SEARCH_PARAMS] and not in
    [params] before the loop is not in [params] after it. *)
Lemma fold_map_advanced_absent (k : string) (kwargs params : Dict.t pyval) :
  ~ In k (map snd ADVANCED_SEARCH_PARAMS) ->
  Dict.get k params = None ->
  Dict.get k (fold_left map_advanced kwargs params) = None.
Proof.
  intros Hk. revert params.
  induction kwargs as [|[key value] r IH]; intros params H;
    cbn [fold_left]; [exact H|].
  apply IH. unfold map_advanced.
  destruct (Dict.get key ADVANCED_SEARCH_PARAMS) as [s|] eqn:E.
  - rewrite get_set_other; [exact H|].
    intros ->. apply Hk. eapply get_in_values. exact E.
  - destruct (Dict.mem key params) eqn:M; [|exact H].
    rewrite get_set_other; [exact H|].
    intros ->. apply mem_false in H. congruence.
Qed.

(** The loop leaves alone what no keyword of the call writes. *)
Lemma fold_map_advanced_kept (k : string) (kwargs params : Dict.t pyval) :
  (forall key value,
      In (key, value) kwargs ->
      key <> k /\ Dict.get key ADVANCED_SEARCH_PARAMS <> Some k) ->
  Dict.get k (fold_left map_advanced kwargs params) = Dict.get k params.
Proof.
  revert params.
  induction kwargs as [|[key value] r IH]; intros params H;
    cbn [fold_left]; [reflexivity|].
  rewrite IH by (intros a x Hin; apply (H a x); now right).
  destruct (H key value (or_introl eq_refl)) as [N T].
  unfold map_advanced.
  destruct (Dict.get key ADVANCED_SEARCH_PARAMS) as [s|].
  - apply get_set_other. intros ->. now apply T.
  - destruct (Dict.mem key params); [|reflexivity].
    now apply get_set_other.
Qed.

Lemma fold_map_advanced_mem (k : string) (kwargs params : Dict.t pyval) :
  Dict.mem k params = true ->
  Dict.mem k (fold_left map_advanced kwargs params) = true.
Proof.
  revert params.
  induction kwargs as [|[key value] r IH]; intros params H;
    cbn [fold_left]; [exact H|].
  apply IH. unfold map_advanced.
  assert (S : forall a x, Dict.mem k (Dict.set a x params) = true).
  { intros a x. unfold Dict.mem in H |- *. rewrite get_set.
    destruct (a =? k)%string; [reflexivity|exact H]. }
  destruct (Dict.get key ADVANCED_SEARCH_PARAMS); [apply S|].
  destruct (Dict.mem key params); [apply S|exact H].
Qed.

(** Only [time_filter] is mapped to [with_date]. *)
Lemma advanced_with_date (key : string) :
  Dict.get key ADVANCED_SEARCH_PARAMS = Some "with_date" ->
  key = "time_filter".
Proof.
  unfold ADVANCED_SEARCH_PARAMS. cbn [Dict.get].
  repeat match goal with
         | |- context [(?a =? key)%string] =>
             destruct (String.eqb_spec a key) as [<-|_];
             [first [reflexivity|discriminate]|]
         end.
  discriminate.
Qed.

(** With distinct keywords, the value given for [time_filter] is what the
    loop leaves under [with_date], unless [with_date] is given too. *)
Lemma fold_map_advanced_time_filter (v : pyval)
    (kwargs params : Dict.t pyval) :
  Dict.wf kwargs ->
  Dict.get "time_filter" kwargs = Some v ->
  Dict.get "with_date" kwargs = None ->
  Dict.get "with_date" (fold_left map_advanced kwargs params) = Some v.
Proof.
  unfold Dict.wf. revert params.
  induction kwargs as [|[key value] r IH]; intros params W Ht Hw;
    [discriminate|].
  inversion W as [|? ? Hn Hr]; subst. cbn [fold_left].
  cbn [Dict.get] in Ht, Hw.
  destruct (String.eqb_spec key "with_date") as [->|Nw]; [discriminate|].
  destruct (String.eqb_spec key "time_filter") as [->|Nt].
  - injection Ht as ->.
    rewrite fold_map_advanced_kept.
    + unfold map_advanced.
      change (Dict.get "time_filter" ADVANCED_SEARCH_PARAMS)
        with (Some "with_date").
      apply get_set_same.
    + intros a x Hin. split.
      * eapply get_none_in; [exact Hw|exact Hin].
      * intros T. apply advanced_with_date in T. subst a.
        apply Hn. change "time_filter" with (fst ("time_filter", x)).
        now apply in_map.
  - now apply IH.
Qed.

(** [advanced_search] on a query that is not blank is one call of
    [_perform_search_request] with the defaults of every filter; what it
    passes on is [cmd] and the mapped keywords. *)
Lemma advanced_search_perform query kwargs :
  Str.strip query <> "" ->
  Dict.get "query" kwargs = None ->
  exists category,
    let params :=
      Dict.remove "cat"
        (Dict.remove "query"
           (fold_left map_advanced kwargs
              [ ("query", PStr (Str.strip query)); ("cat", PStr "web");
                ("cmd", PStr "process_search") ])) in
    (forall w,
        advanced_search query kwargs w
        = _perform_search_request (Str.strip query) category "web" "en" "all"
            (PStr "moderate") 1 10 PNone PNone PNone PNone PNone PNone
            params w)
    /\ repeated_keyword builder_keywords params = None
    /\ (Dict.get "cat" kwargs = None -> category = PStr "web").
Proof.
  intros Hq Hk. apply is_empty_false in Hq.
  set (start := [ ("query", PStr (Str.strip query)); ("cat", PStr "web");
                  ("cmd", PStr "process_search") ]).
  assert (Gq : Dict.get "query" (fold_left map_advanced kwargs start)
               = Some (PStr (Str.strip query))).
  { rewrite fold_map_advanced_kept; [reflexivity|].
    intros a x Hin. split; [eapply get_none_in; [exact Hk|exact Hin]|].
    intros T. apply get_in_values in T. cbn in T.
    repeat (destruct T as [T|T]; [discriminate T|]). exact T. }
  assert (Gm : Dict.mem "cat" (fold_left map_advanced kwargs start) = true)
    by now apply fold_map_advanced_mem.
  unfold Dict.mem in Gm.
  destruct (Dict.get "cat" (fold_left map_advanced kwargs start))
    as [category|] eqn:Gc; [clear Gm|discriminate Gm].
  assert (A : forall k,
             ~ In k (map snd ADVANCED_SEARCH_PARAMS) ->
             Dict.get k start = None ->
             Dict.mem k (Dict.remove "cat"
                           (Dict.remove "query"
                              (fold_left map_advanced kwargs start)))
             = false).
  { intros k Hn Hs. apply mem_false.
    destruct (String.eqb_spec "cat" k) as [<-|Nc]; [apply get_remove_same|].
    rewrite get_remove_other by exact Nc.
    destruct (String.eqb_spec "query" k) as [<-|Nq]; [apply get_remove_same|].
    rewrite get_remove_other by exact Nq.
    now apply fold_map_advanced_absent. }
  assert (Q : forall k,
             k <> "cmd" -> ~ In k (map snd ADVANCED_SEARCH_PARAMS) ->
             Dict.mem k (Dict.remove "cat"
                           (Dict.remove "query"
                              (fold_left map_advanced kwargs start)))
             = false).
  { intros k Nc Hn. apply mem_false.
    destruct (String.eqb_spec "cat" k) as [<-|N1]; [apply get_remove_same|].
    rewrite get_remove_other by exact N1.
    destruct (String.eqb_spec "query" k) as [<-|N2]; [apply get_remove_same|].
    rewrite get_remove_other by exact N2.
    apply fold_map_advanced_absent; [exact Hn|].
    unfold start. cbn [Dict.get].
    destruct (String.eqb_spec "query" k); [congruence|].
    destruct (String.eqb_spec "cat" k); [congruence|].
    destruct (String.eqb_spec "cmd" k); [congruence|reflexivity]. }
  exists category. cbv zeta. fold start. split; [|split].
  - intros w. unfold advanced_search. rewrite Hq. cbv zeta. fold start.
    rewrite Gq, Gc.
    replace (repeated_keyword ["query"; "category"; "category_for_parser"] _)
      with (@None string); [reflexivity|].
    symmetry. apply repeated_keyword_none. intros k Hin. apply Q.
    + cbn [In] in Hin. intros ->.
      repeat (destruct Hin as [Hin|Hin]; [discriminate Hin|]). exact Hin.
    + cbn [In] in Hin. cbn. intros T.
      repeat (destruct Hin as [<-|Hin];
              [repeat (destruct T as [T|T]; [discriminate T|]); exact T|]).
      exact Hin.
  - apply repeated_keyword_none. intros k Hin. apply Q.
    + unfold builder_keywords in Hin. cbn [In] in Hin. intros ->.
      repeat (destruct Hin as [Hin|Hin]; [discriminate Hin|]). exact Hin.
    + unfold builder_keywords in Hin. cbn [In] in Hin. cbn. intros T.
      repeat (destruct Hin as [<-|Hin];
              [repeat (destruct T as [T|T]; [discriminate T|]); exact T|]).
      exact Hin.
  - intros Hc. rewrite fold_map_advanced_kept in Gc.
    + now injection Gc as <-.
    + intros a x Hin. split; [eapply get_none_in; [exact Hc|exact Hin]|].
      intros T. apply get_in_values in T. cbn in T.
      repeat (destruct T as [T|T]; [discriminate T|]). exact T.
Qed.

(** [advanced_search] takes no language, region or page from its keywords:
    a request it sends is a POST to the search URL with the trimmed query,
    the language [en], the region [all] and the offset [0], whatever the
    keywords are: a [language], [region] or [page] among them is dropped. *)
Theorem advanced_search_settings_are_fixed query kwargs w call :
  Dict.get "query" kwargs = None ->
  In call (wire (snd (advanced_search query kwargs w))) ->
  In call (wire w)
  \/ exists form,
       call_form call = Some form
       /\ call_url call = SEARCH_URL
       /\ Dict.get "query" form = Some (PStr (Str.strip query))
       /\ Dict.get "language" form = Some (PStr "en")
       /\ Dict.get "lui" form = Some (PStr "en")
       /\ Dict.get "pl" form = Some (PStr "all")
       /\ Dict.get "startat" form = Some (PStr "0").
Proof.
  intros Hk Hin.
  destruct (Str.is_empty (Str.strip query)) eqn:Hq.
  { left. unfold advanced_search in Hin. rewrite Hq in Hin. exact Hin. }
  apply is_empty_false in Hq.
  destruct (advanced_search_perform query kwargs Hq Hk) as (category & E & R & _).
  cbv zeta in E, R. rewrite E in Hin.
  apply perform_sends_base in Hin; [|exact R].
  destruct Hin as [Hin|(base & Hf & Hu & Hs & Eb)]; [now left|].
  right. eexists. split; [exact Hf|]. split; [exact Hu|].
  destruct (build_base (Str.strip query) category "en" "all" 1 10
              (PStr "moderate") PNone PNone PNone PNone PNone PNone Hs)
    as (b & E1 & Gq & _ & Gl & Gu & Gp & Gs & _).
  assert (B : b = base) by (eapply build_base_unique; [exact E1|exact Eb]).
  subst b.
  assert (A : forall k,
             k <> "cmd" -> ~ In k (map snd ADVANCED_SEARCH_PARAMS) ->
             Dict.get k
               (Dict.remove "cat"
                  (Dict.remove "query"
                     (fold_left map_advanced kwargs
                        [ ("query", PStr (Str.strip query));
                          ("cat", PStr "web");
                          ("cmd", PStr "process_search") ])))
             = None).
  { intros k Nc Hn.
    destruct (String.eqb_spec "cat" k) as [<-|N1]; [apply get_remove_same|].
    rewrite get_remove_other by exact N1.
    destruct (String.eqb_spec "query" k) as [<-|N2]; [apply get_remove_same|].
    rewrite get_remove_other by exact N2.
    apply fold_map_advanced_absent; [exact Hn|].
    cbn [Dict.get].
    destruct (String.eqb_spec "query" k); [congruence|].
    destruct (String.eqb_spec "cat" k); [congruence|].
    destruct (String.eqb_spec "cmd" k); [congruence|reflexivity]. }
  assert (N : forall k,
             In k ["query"; "language"; "lui"; "pl"; "startat"] ->
             k <> "cmd" /\ ~ In k (map snd ADVANCED_SEARCH_PARAMS)).
  { intros k Hk'. cbn [In] in Hk'. split.
    - intros ->.
      repeat (destruct Hk' as [Hk'|Hk']; [discriminate Hk'|]). exact Hk'.
    - cbn. intros T.
      repeat (destruct Hk' as [<-|Hk'];
              [repeat (destruct T as [T|T]; [discriminate T|]); exact T|]).
      exact Hk'. }
  rewrite !get_update_absent
    by (apply A; apply N; in_list).
  rewrite Gq, Gl, Gu, Gp, Gs, strip_idem.
  repeat (split; [reflexivity|]). reflexivity.
Qed.

(** [advanced_search] sends the value given for [time_filter] as it is
    under [with_date]: it is not translated through [TIME_FILTERS] as
    [search] translates it. *)
Theorem advanced_search_time_filter_is_sent_raw query kwargs w call v :
  Dict.wf kwargs ->
  Dict.get "query" kwargs = None ->
  Dict.get "with_date" kwargs = None ->
  Dict.get "time_filter" kwargs = Some v ->
  In call (wire (snd (advanced_search query kwargs w))) ->
  In call (wire w)
  \/ exists form,
       call_form call = Some form
       /\ call_url call = SEARCH_URL
       /\ Dict.get "with_date" form = Some v.
Proof.
  intros W Hk Hw Ht Hin.
  destruct (Str.is_empty (Str.strip query)) eqn:Hq.
  { left. unfold advanced_search in Hin. rewrite Hq in Hin. exact Hin. }
  apply is_empty_false in Hq.
  destruct (advanced_search_perform query kwargs Hq Hk) as (category & E & R & _).
  cbv zeta in E, R. rewrite E in Hin.
  apply perform_sends_base in Hin; [|exact R].
  destruct Hin as [Hin|(base & Hf & Hu & _)]; [now left|].
  right. eexists. split; [exact Hf|]. split; [exact Hu|].
  apply get_update_present.
  - apply wf_remove, wf_remove, wf_fold_map_advanced.
    unfold Dict.wf. cbn [map fst].
    repeat (constructor; [cbn [In]; intros T;
                          repeat (destruct T as [T|T]; [discriminate T|]);
                          exact T|]).
    constructor.
  - rewrite !get_remove_other by discriminate.
    now apply fold_map_advanced_time_filter.
Qed.


(** *** Video search *)

(** A request of [videos_search] is a POST to the search URL for the
    category [video]. A duration that is not empty and not [any] goes out
    under [duration], translated through [VIDEO_DURATIONS] when it is a key
    of the table and as it is otherwise; the time filter goes out under
    [with_date] in the same way through [TIME_FILTERS]. *)
Theorem videos_search_sends_its_filters query language region safe_search
    duration time_filter page results_per_page kwargs w call :
  (forall k, In k ["cat"; "duration"; "with_date"] ->
             Dict.mem k kwargs = false) ->
  In call (wire (snd (videos_search query language region safe_search
                        duration time_filter page results_per_page kwargs
                        w))) ->
  In call (wire w)
  \/ exists form,
       call_form call = Some form
       /\ call_url call = SEARCH_URL
       /\ Dict.get "cat" form = Some (PStr "video")
       /\ Dict.get "duration" form
          = (if negb (Str.is_empty duration)
                && negb (duration =? "any")%string
             then Some (PStr (Dict.get_default duration duration
                                VIDEO_DURATIONS))
             else None)
       /\ Dict.get "with_date" form
          = (if negb (Str.is_empty time_filter)
                && negb (time_filter =? "any")%string
             then Some (PStr (Dict.get_default time_filter time_filter
                                TIME_FILTERS))
             else None).
Proof.
  intros Hx Hin. unfold videos_search in Hin.
  destruct (repeated_keyword videos_search_passes kwargs) eqn:E;
    [now left|].
  assert (Hk : repeated_keyword builder_keywords
                 (remaining_kwargs
                    ["size"; "latitude"; "longitude"; "radius"] kwargs)
               = None).
  { eapply remaining_has_no_builder_keyword;
      [exact E|builder_keywords_covered]. }
  apply perform_sends_base in Hin; [|exact Hk].
  destruct Hin as [H|(base & Hf & Hu & Hq & Eb)]; [now left|].
  right. eexists. split; [exact Hf|]. split; [exact Hu|].
  destruct (build_base query (PStr "video") language region page
              results_per_page (PStr safe_search) (PStr time_filter)
              (keyword_or_default "size" PNone kwargs)
              (PStr duration)
              (keyword_or_default "latitude" PNone kwargs)
              (keyword_or_default "longitude" PNone kwargs)
              (keyword_or_default "radius" PNone kwargs) Hq)
    as (base' & Eb' & _ & Gc & _ & _ & _ & _ & _ & Gw & _ & Gd & _).
  assert (B : base = base')
    by (eapply build_base_unique; [exact Eb|exact Eb']).
  subst base.
  rewrite !get_update_absent
    by (apply mem_remaining_absent; apply Hx; in_list).
  rewrite Gc, Gw, Gd.
  split; [reflexivity|].
  cbn [py_truthy py_eq_str py_in_strs existsb String.eqb Ascii.eqb Bool.eqb
       orb negb andb].
  rewrite !andb_true_r. unfold table_get, Dict.get_default.
  split.
  - destruct (negb (Str.is_empty duration)
              && negb (duration =? "any")%string); [|reflexivity].
    now destruct (Dict.get duration VIDEO_DURATIONS).
  - destruct (negb (Str.is_empty time_filter)
              && negb (time_filter =? "any")%string); [|reflexivity].
    now destruct (Dict.get time_filter TIME_FILTERS).
Qed.

End Program.

(* ------------------------------------------------------------------ *)
(** ** The program in the small world *)

Local Abbreviation demo_make_request :=
  (_make_request Demo.Request_raises Demo.urlopen Demo.gzip_decompress Demo.decode_utf8).

Local Abbreviation demo_parse_search_results :=
  (@parse_search_results Demo.ResultPage Demo.parse_page Demo.parse_page
     Demo.parse_page Demo.parse_page Demo.parse_page).

Local Abbreviation demo_parse_suggestions :=
  (@parse_suggestions Demo.json_loads Demo.soup Demo.tag Demo.BeautifulSoup
     Demo.soup_select Demo.soup_find_all_suggest Demo.tag_get
     Demo.tag_get_text).

Local Abbreviation demo_search :=
  (@search Demo.Request_raises Demo.urlopen Demo.gzip_decompress Demo.decode_utf8
     Demo.ResultPage Demo.parse_page Demo.parse_page Demo.parse_page
     Demo.parse_page Demo.parse_page).

Local Abbreviation demo_instant_answers :=
  (@instant_answers Demo.Request_raises Demo.urlopen Demo.gzip_decompress Demo.decode_utf8
     Demo.soup Demo.BeautifulSoup Demo.answer_from_sxpr Demo.no_answer
     Demo.no_answer2 Demo.no_answer_doc Demo.panel_from_sxpr Demo.no_panel).

(** C9, the claim as written fails: the trailing blank of [//x.com/a ] is
    not kept, and an absolute URL with a blank before it is not returned
    unchanged. *)
Lemma normalize_url_drops_whitespace :
  _normalize_url (Some ("//" ++ "x.com/a ")) _STARTPAGE_BASE_URL
  <> "https://" ++ "x.com/a "
  /\ _normalize_url (Some " https://x.com/a") _STARTPAGE_BASE_URL
     <> " https://x.com/a".
Proof. split; discriminate. Qed.

Lemma normalize_url_spec_witness :
  _normalize_url (Some ("/" ++ "a/b ")) _STARTPAGE_BASE_URL
  = "https://www.startpage.com/a/b"
  /\ _normalize_url (Some " https://x.com/a ") _STARTPAGE_BASE_URL
     = "https://x.com/a"
  /\ _normalize_url (Some "https://x.com/a") _STARTPAGE_BASE_URL
     = "https://x.com/a"
  /\ _normalize_url (Some " /a/b") _STARTPAGE_BASE_URL
     = "https://www.startpage.com/a/b"
  /\ _normalize_url (Some "  //x.com/a") _STARTPAGE_BASE_URL
     = "https://x.com/a".
Proof.
  destruct normalize_url_spec
    as (Trim & Protocol & Root & Absolute & Unchanged & _).
  split; [|split; [|split; [|split]]].
  - exact (Root "a/b " eq_refl).
  - exact (Absolute " https://x.com/a " eq_refl).
  - exact (Unchanged "https://x.com/a" eq_refl eq_refl).
  - rewrite (Trim " /a/b"). exact (Root "a/b" eq_refl).
  - rewrite (Trim "  //x.com/a"). exact (Protocol "x.com/a").
Defined.

Lemma build_query_and_offset_witness :
  (exists params,
      _build_search_params "  cats  " (PStr "web") "en" "all" 3 10
        (PStr "moderate") (PStr "any") PNone PNone PNone PNone PNone
        [("sc", PStr "x")] = Ok params
      /\ Dict.get "query" params = Some (PStr "cats")
      /\ Dict.get "startat" params = Some (PStr "20"))
  /\ _build_search_params "   " (PStr "web") "en" "all" 3 10
       (PStr "moderate") (PStr "any") PNone PNone PNone PNone PNone
       [("sc", PStr "x")] = Raise (ValueError "Query cannot be empty.").
Proof.
  destruct build_query_and_offset as (General & _ & Blank).
  split.
  - apply (General "  cats  " (PStr "web") "en" "all" 3 10 (PStr "moderate")
             (PStr "any") PNone PNone PNone PNone PNone [("sc", PStr "x")]).
    + discriminate.
    + repeat constructor. intros [].
    + reflexivity.
  - apply Blank. reflexivity.
Defined.

(** C3, the claim as written fails: the safe-search level "paranoid" is in
    no table, and what is sent for it is "0". *)
Lemma unknown_safe_search_level_is_sent_as_moderate :
  Dict.get "paranoid" SAFE_SEARCH_LEVELS = None
  /\ exists params,
       _build_search_params "cats" (PStr "web") "en" "all" 1 10
         (PStr "paranoid") (PStr "any") PNone PNone PNone PNone PNone []
       = Ok params
       /\ Dict.get "ff" params = Some (PStr "0")
       /\ Dict.get "ff" params <> Some (PStr "paranoid").
Proof.
  split; [reflexivity|]. eexists. split; [reflexivity|].
  split; [reflexivity|discriminate].
Qed.

Lemma unknown_keys_witness :
  exists params,
    _build_search_params "cats" (PStr "web") "klingon" "mars" 1 10
      (PStr "paranoid") (PStr "decade") (PStr "huge") (PStr "epic")
      PNone PNone PNone [] = Ok params
    /\ Dict.get "language" params = Some (PStr "klingon")
    /\ Dict.get "pl" params = Some (PStr "mars")
    /\ Dict.get "with_date" params = Some (PStr "decade")
    /\ Dict.get "size" params = None
    /\ Dict.get "duration" params = None
    /\ Dict.get "ff" params = Some (PStr "0").
Proof.
  destruct (@unknown_keys_pass_through_except_safe_search
              "cats" (PStr "web") "klingon" "mars" 1 10 (PStr "paranoid")
              (PStr "decade") (PStr "huge") (PStr "epic") PNone PNone PNone [])
    as (params & E & Language & Region & Time & Size & Duration & Safe).
  - discriminate.
  - reflexivity.
  - exists params. split; [exact E|].
    split; [exact (proj1 (Language eq_refl))|].
    split; [exact (Region eq_refl)|].
    split; [exact (Time "decade" eq_refl eq_refl)|].
    split; [exact (Size "huge" eq_refl eq_refl)|].
    split; [exact (Duration "epic" eq_refl eq_refl)|].
    exact (Safe "paranoid" eq_refl eq_refl).
Defined.

Lemma make_request_maps_failures_witness :
  fst (demo_make_request "https://busy.example/" None None Demo.world)
  = Raise (StartpageRateLimitError "Rate limit exceeded: 429 Too Many Requests")
  /\ fst (demo_make_request "https://broken.example/" None None Demo.world)
     = Raise (StartpageHTTPError 500 "HTTP error: 500 Internal Server Error")
  /\ fst (demo_make_request "https://nowhere.example/" None None Demo.world)
     = Raise (StartpageError
                "Network error: [Errno -2] Name or service not known")
  /\ fst (demo_make_request "https://stalled.example/" None None Demo.world)
     = Raise (StartpageError
                ("Request failed due to an unexpected error: "
                 ++ "The read operation timed out"))
  /\ fst (demo_make_request "https://garbled.example/" None None Demo.world)
     = Raise (StartpageError
                ("Request failed due to an unexpected error: "
                 ++ "Not a gzipped file"))
  /\ length (wire (snd (demo_make_request "https://broken.example/" None None
                          Demo.world))) = 1%nat
  /\ fst (demo_make_request "notaurl" None None Demo.world)
     = Raise (StartpageError
                ("Request failed due to an unexpected error: "
                 ++ "unknown url type: 'notaurl'"))
  /\ wire (snd (demo_make_request "notaurl" None None Demo.world)) = [].
Proof.
  pose proof (fun url =>
                proj2 (make_request_maps_failures Demo.Request_raises
                         Demo.urlopen Demo.gzip_decompress Demo.decode_utf8
                         url None None Demo.world)) as Built.
  cbv zeta in Built.
  destruct (Built "https://busy.example/" eq_refl)
    as (_ & Busy & _).
  destruct (Built "https://broken.example/" eq_refl)
    as (Sent & _ & _ & Broken & _).
  destruct (Built "https://nowhere.example/" eq_refl)
    as (_ & _ & _ & _ & Nowhere & _).
  destruct (Built "https://stalled.example/" eq_refl)
    as (_ & _ & _ & _ & _ & Stalled & _).
  destruct (Built "https://garbled.example/" eq_refl)
    as (_ & _ & _ & _ & _ & _ & Garbled).
  destruct (proj1 (make_request_maps_failures Demo.Request_raises
                     Demo.urlopen Demo.gzip_decompress Demo.decode_utf8
                     "notaurl" None None Demo.world)
              (ValueError "unknown url type: 'notaurl'") eq_refl)
    as (Unbuilt & _ & Quiet).
  split; [exact (Busy "Too Many Requests" eq_refl)|].
  split.
  { refine (Broken 500 "Internal Server Error"
              {| resp_content := ""; resp_content_encoding := None |} _
              eq_refl).
    intros [_ H]. discriminate H. }
  split; [exact (Nowhere "[Errno -2] Name or service not known" eq_refl)|].
  split.
  { exact (Stalled (PyException "TimeoutError" "The read operation timed out")
             eq_refl). }
  split.
  { exact (Garbled {| resp_content := "not gzip";
                      resp_content_encoding := Some "gzip" |}
             (PyException "BadGzipFile" "Not a gzipped file")
             eq_refl eq_refl eq_refl). }
  split; [now rewrite Sent|].
  split; [exact Unbuilt|exact Quiet].
Defined.

Lemma parse_search_results_rejects_witness :
  (exists msg, demo_parse_search_results "" "web" = Raise (StartpageParseError msg))
  /\ (exists msg,
         demo_parse_search_results "<html/>" "bogus" = Raise (StartpageParseError msg)).
Proof.
  split.
  - destruct (@parse_search_results_rejects Demo.ResultPage Demo.parse_page
                Demo.parse_page Demo.parse_page Demo.parse_page
                Demo.parse_page "" "web") as (msg & E & _).
    + left. reflexivity.
    + exists msg. exact E.
  - destruct (@parse_search_results_rejects Demo.ResultPage Demo.parse_page
                Demo.parse_page Demo.parse_page Demo.parse_page
                Demo.parse_page "<html/>" "bogus") as (msg & E & _).
    + right. cbn [In]. intros [H|[H|[H|[H|[H|[]]]]]]; discriminate H.
    + exists msg. exact E.
Defined.

Lemma instant_answers_blank_query_witness :
  demo_instant_answers "   " "en" [("num", PStr "5")] Demo.world
  = (Ok {| instant_answer := None; knowledge_panel := None |}, Demo.world).
Proof.
  apply (@instant_answers_blank_query Demo.Request_raises Demo.urlopen Demo.gzip_decompress
           Demo.decode_utf8 Demo.soup Demo.BeautifulSoup Demo.answer_from_sxpr
           Demo.no_answer Demo.no_answer2 Demo.no_answer_doc
           Demo.panel_from_sxpr Demo.no_panel).
  reflexivity.
Defined.

Lemma instant_answers_clears_duplicate_witness :
  (exists html_content doc,
      Demo.BeautifulSoup html_content = Ok doc
      /\ {| instant_answer := None;
            knowledge_panel :=
              Some {| title := "France";
                      description := "Paris is the capital of France.";
                      facts := []; source := "Startpage Knowledge" |} |}
         = clear_duplicate
             (detect_instant_answer Demo.answer_from_sxpr Demo.no_answer
                Demo.no_answer2 Demo.no_answer_doc doc html_content
                "capital of France")
             (detect_knowledge_panel Demo.panel_from_sxpr Demo.no_panel doc))
  /\ clear_duplicate (Some "Paris")
       (Some {| title := ""; description := "Paris is the capital of France.";
                facts := []; source := "Startpage Knowledge" |})
     = {| instant_answer := Some "Paris"; knowledge_panel := None |}.
Proof.
  destruct (@instant_answers_clears_duplicate Demo.Request_raises Demo.urlopen
              Demo.gzip_decompress Demo.decode_utf8 Demo.soup
              Demo.BeautifulSoup Demo.answer_from_sxpr Demo.no_answer
              Demo.no_answer2 Demo.no_answer_doc Demo.panel_from_sxpr
              Demo.no_panel) as (Assembles & Clears).
  split.
  - apply (Assembles "capital of France" "en" [] Demo.world _
             (snd (demo_instant_answers "capital of France" "en" []
                     Demo.world))).
    + discriminate.
    + reflexivity.
  - apply Clears.
    + discriminate.
    + discriminate.
    + left. reflexivity.
    + reflexivity.
Defined.

(** C2, the claim as written fails: [instant_answers] on an empty query
    raises nothing, and [search] on an empty query with an extra keyword
    [category] does not get as far as the [ValueError]. *)
Lemma blank_query_is_not_always_a_value_error :
  fst (demo_instant_answers "" "en" [] Demo.world)
  = Ok {| instant_answer := None; knowledge_panel := None |}
  /\ ~ (exists msg,
           fst (demo_instant_answers "" "en" [] Demo.world)
           = Raise (ValueError msg))
  /\ ~ (exists msg,
           fst (demo_search "" "en" "all" "moderate" "any" 1 10
                  [("category", PStr "pics")] Demo.world)
           = Raise (ValueError msg)).
Proof.
  split; [reflexivity|]. split; intros [msg H]; discriminate H.
Qed.

Lemma blank_query_stops_before_network_witness :
  demo_search "  " "en" "all" "moderate" "any" 1 10 [("size", PStr "large")]
    Demo.world
  = (Raise (ValueError "Query cannot be empty."), Demo.world)
  /\ (exists msg,
         demo_search "  " "en" "all" "moderate" "any" 1 10
           [("size", PStr "large"); ("category", PStr "pics")] Demo.world
         = (Raise (TypeError msg), Demo.world))
  /\ demo_instant_answers "  " "en" [] Demo.world
     = (Ok {| instant_answer := None; knowledge_panel := None |}, Demo.world).
Proof.
  destruct (@blank_query_stops_before_network Demo.Request_raises
              Demo.urlopen
              Demo.gzip_decompress Demo.decode_utf8 Demo.soup
              Demo.BeautifulSoup Demo.ResultPage Demo.parse_page
              Demo.parse_page Demo.parse_page Demo.parse_page Demo.parse_page
              Demo.answer_from_sxpr Demo.no_answer Demo.no_answer2
              Demo.no_answer_doc Demo.panel_from_sxpr Demo.no_panel
              "  " eq_refl) as (Search & _ & _ & _ & _ & _ & Instant).
  split; [|split].
  - destruct (Search "en" "all" "moderate" "any" 1 10 [("size", PStr "large")]
                Demo.world) as (e & E & Value & _).
    rewrite E, Value; [reflexivity|].
    intros k [<-|[<-|[<-|[<-|[<-|[<-|[<-|[<-|[<-|[]]]]]]]]]]; reflexivity.
  - destruct (Search "en" "all" "moderate" "any" 1 10
                [("size", PStr "large"); ("category", PStr "pics")]
                Demo.world) as (e & E & _ & Type_).
    destruct Type_ as [msg ->].
    + exists "category". split; [right; left; reflexivity|reflexivity].
    + exists msg. exact E.
  - exact (Instant "en" [] Demo.world).
Defined.

Lemma parse_suggestions_json_keeps_duplicates_witness :
  demo_parse_suggestions Demo.repeated_suggestion = ["a"; "a"]
  /\ ~ NoDup (demo_parse_suggestions Demo.repeated_suggestion).
Proof.
  apply (@parse_suggestions_json_keeps_duplicates Demo.json_loads Demo.soup
           Demo.tag Demo.BeautifulSoup Demo.soup_select
           Demo.soup_find_all_suggest Demo.tag_get Demo.tag_get_text
           Demo.repeated_suggestion "q" "a").
  reflexivity.
Defined.

(** The response [["q", ["qa", "qb", "qc"]]] gives the three suggestions in
    their order. *)
Example parse_suggestions_three :
  demo_parse_suggestions Demo.three_suggestions = ["qa"; "qb"; "qc"].
Proof. reflexivity. Qed.


(* ------------------------------------------------------------------ *)
(** ** The further properties in the small world *)

Local Abbreviation demo_images_search :=
  (@images_search Demo.Request_raises Demo.urlopen Demo.gzip_decompress Demo.decode_utf8
     Demo.ResultPage Demo.parse_page Demo.parse_page Demo.parse_page
     Demo.parse_page Demo.parse_page).

Local Abbreviation demo_places_search :=
  (@places_search Demo.Request_raises Demo.urlopen Demo.gzip_decompress Demo.decode_utf8
     Demo.ResultPage Demo.parse_page Demo.parse_page Demo.parse_page
     Demo.parse_page Demo.parse_page).

Local Abbreviation demo_advanced_search :=
  (@advanced_search Demo.Request_raises Demo.urlopen Demo.gzip_decompress Demo.decode_utf8
     Demo.ResultPage Demo.parse_page Demo.parse_page Demo.parse_page
     Demo.parse_page Demo.parse_page).

Lemma normalize_url_trailing_slash_base_witness :
  _normalize_url (Some "/a/b ") "https://x.org/" = "https://x.org/a/b"
  /\ _normalize_url (Some "/a/b ") "https://x.org" = "https://x.org/a/b".
Proof.
  destruct (normalize_url_trailing_slash_base "https://x.org" "a/b " eq_refl)
    as (Slash & Plain).
  split; [exact Slash|exact (Plain eq_refl)].
Defined.

Lemma build_extras_override_witness :
  exists computed params,
    _build_search_params "cats" (PStr "web") "en" "all" 1 10
      (PStr "moderate") (PStr "any") PNone PNone PNone PNone PNone []
    = Ok computed
    /\ _build_search_params "cats" (PStr "web") "en" "all" 1 10
         (PStr "moderate") (PStr "any") PNone PNone PNone PNone PNone
         [("num", PStr "50"); ("sc", PStr "x")]
       = Ok params
    /\ Dict.get "num" computed = Some (PStr "10")
    /\ Dict.get "num" params = Some (PStr "50")
    /\ Dict.get "sc" params = Some (PStr "x")
    /\ Dict.get "cat" params = Dict.get "cat" computed.
Proof.
  destruct (@build_extras_override "cats" (PStr "web") "en" "all" 1 10
              (PStr "moderate") (PStr "any") PNone PNone PNone PNone PNone
              [("num", PStr "50"); ("sc", PStr "x")])
    as (computed & params & Ec & Ep & G).
  - discriminate.
  - constructor; [intros [H|[]]; discriminate H|].
    constructor; [intros []|constructor].
  - exists computed, params. split; [exact Ec|]. split; [exact Ep|].
    split; [|split; [exact (G "num")|split; [exact (G "sc")|exact (G "cat")]]].
    vm_compute in Ec. injection Ec as <-. reflexivity.
Defined.

Lemma parse_suggestions_scan_is_clean_witness :
  @parse_suggestions Demo.json_loads Markup.soup Markup.tag
    Markup.BeautifulSoup Markup.soup_select Markup.soup_find_all_suggest
    Markup.tag_get Markup.tag_get_text Markup.options_page
  = ["cats"; "dogs"]
  /\ NoDup ["cats"; "dogs"]
  /\ Forall (fun s => s <> "" /\ trimmed s) ["cats"; "dogs"].
Proof.
  split; [reflexivity|].
  apply (@parse_suggestions_scan_is_clean Demo.json_loads Markup.soup
           Markup.tag Markup.BeautifulSoup Markup.soup_select
           Markup.soup_find_all_suggest Markup.tag_get Markup.tag_get_text
           Markup.options_page).
  intros first items rest. discriminate.
Defined.

Lemma search_request_witness :
  exists call,
    hd_error (wire (snd (demo_search "cats" "en" "all" "strict" "week" 2 10
                           [("sc", PStr "x")] Demo.world)))
    = Some call
    /\ exists form,
         call_form call = Some form
         /\ call_url call = SEARCH_URL
         /\ Dict.get "query" form = Some (PStr "cats")
         /\ Dict.get "cat" form = Some (PStr "web")
         /\ Dict.get "num" form = Some (PStr "10")
         /\ Dict.get "startat" form = Some (PStr "10")
         /\ Dict.get "with_date" form = Some (PStr "w")
         /\ Dict.get "ff" form = Some (PStr "1").
Proof.
  eexists. split; [vm_compute; reflexivity|].
  match goal with
  | |- exists form, call_form ?c = _ /\ _ =>
      destruct (@search_request Demo.Request_raises Demo.urlopen Demo.gzip_decompress
                  Demo.decode_utf8 Demo.ResultPage Demo.parse_page
                  Demo.parse_page Demo.parse_page Demo.parse_page
                  Demo.parse_page "cats" "en" "all" "strict" "week" 2 10
                  [("sc", PStr "x")] Demo.world c) as [H|H]
  end.
  - intros k [<-|[<-|[<-|[<-|[<-|[]]]]]]; reflexivity.
  - vm_compute. left. reflexivity.
  - exact (False_ind _ H).
  - exact H.
Defined.

Lemma instant_answers_sends_one_post_witness :
  exists call form,
    wire (snd (demo_instant_answers "capital of France " "en" []
                 Demo.world))
    = [call]
    /\ call_url call = SEARCH_URL
    /\ call_form call = Some form
    /\ Dict.get "query" form = Some (PStr "capital of France")
    /\ Dict.get "cat" form = Some (PStr "web").
Proof.
  destruct (@instant_answers_sends_one_post Demo.Request_raises Demo.urlopen Demo.gzip_decompress
              Demo.decode_utf8 Demo.soup Demo.BeautifulSoup
              Demo.answer_from_sxpr Demo.no_answer Demo.no_answer2
              Demo.no_answer_doc Demo.panel_from_sxpr Demo.no_panel
              "capital of France " "en" [] Demo.world)
    as (call & form & Sent & Url & Form & Query & Cat & _).
  - discriminate.
  - exists call, form. split; [exact Sent|]. split; [exact Url|].
    split; [exact Form|]. split; [exact (Query eq_refl)|exact (Cat eq_refl)].
Defined.

Lemma advanced_search_settings_are_fixed_witness :
  exists call,
    hd_error (wire (snd (demo_advanced_search " cats"
                           [("language", PStr "german");
                            ("region", PStr "de"); ("page", PInt 3)]
                           Demo.world)))
    = Some call
    /\ exists form,
         call_form call = Some form
         /\ call_url call = SEARCH_URL
         /\ Dict.get "query" form = Some (PStr "cats")
         /\ Dict.get "language" form = Some (PStr "en")
         /\ Dict.get "lui" form = Some (PStr "en")
         /\ Dict.get "pl" form = Some (PStr "all")
         /\ Dict.get "startat" form = Some (PStr "0").
Proof.
  eexists. split; [vm_compute; reflexivity|].
  match goal with
  | |- exists form, call_form ?c = _ /\ _ =>
      destruct (@advanced_search_settings_are_fixed Demo.Request_raises Demo.urlopen
                  Demo.gzip_decompress Demo.decode_utf8 Demo.ResultPage
                  Demo.parse_page Demo.parse_page Demo.parse_page
                  Demo.parse_page Demo.parse_page " cats"
                  [("language", PStr "german"); ("region", PStr "de");
                   ("page", PInt 3)] Demo.world c) as [H|H]
  end.
  - reflexivity.
  - vm_compute. left. reflexivity.
  - exact (False_ind _ H).
  - exact H.
Defined.

Lemma advanced_search_time_filter_is_sent_raw_witness :
  Dict.get "week" TIME_FILTERS = Some "w"
  /\ exists call,
       hd_error (wire (snd (demo_advanced_search "cats"
                              [("time_filter", PStr "week")] Demo.world)))
       = Some call
       /\ exists form,
            call_form call = Some form
            /\ call_url call = SEARCH_URL
            /\ Dict.get "with_date" form = Some (PStr "week").
Proof.
  split; [reflexivity|].
  eexists. split; [vm_compute; reflexivity|].
  match goal with
  | |- exists form, call_form ?c = _ /\ _ =>
      destruct (@advanced_search_time_filter_is_sent_raw Demo.Request_raises Demo.urlopen
                  Demo.gzip_decompress Demo.decode_utf8 Demo.ResultPage
                  Demo.parse_page Demo.parse_page Demo.parse_page
                  Demo.parse_page Demo.parse_page "cats"
                  [("time_filter", PStr "week")] Demo.world c (PStr "week"))
        as [H|H]
  end.
  - constructor; [intros []|constructor].
  - reflexivity.
  - reflexivity.
  - reflexivity.
  - vm_compute. left. reflexivity.
  - exact (False_ind _ H).
  - exact H.
Defined.

Lemma images_search_never_sends_size_witness :
  exists call,
    hd_error (wire (snd (demo_images_search "cats" "en" "all" "moderate"
                           "large" 1 20 [] Demo.world)))
    = Some call
    /\ exists form, call_form call = Some form /\ Dict.get "size" form = None.
Proof.
  eexists. split; [vm_compute; reflexivity|].
  match goal with
  | |- exists form, call_form ?c = _ /\ _ =>
      destruct (@images_search_never_sends_size Demo.Request_raises Demo.urlopen
                  Demo.gzip_decompress Demo.decode_utf8 Demo.ResultPage
                  Demo.parse_page Demo.parse_page Demo.parse_page
                  Demo.parse_page Demo.parse_page "cats" "en" "all"
                  "moderate" "large" 1 20 [] Demo.world c) as [H|H]
  end.
  - vm_compute. left. reflexivity.
  - exact (False_ind _ H).
  - exact H.
Defined.

Lemma places_search_never_sends_position_witness :
  exists call,
    hd_error (wire (snd (demo_places_search "cafe" "en" "all"
                           (PFloat "48.85") (PFloat "2.35") (PInt 500) 1 10
                           [] Demo.world)))
    = Some call
    /\ exists form,
         call_form call = Some form
         /\ Dict.get "latitude" form = None
         /\ Dict.get "longitude" form = None
         /\ Dict.get "radius" form = None.
Proof.
  eexists. split; [vm_compute; reflexivity|].
  match goal with
  | |- exists form, call_form ?c = _ /\ _ =>
      destruct (@places_search_never_sends_position Demo.Request_raises Demo.urlopen
                  Demo.gzip_decompress Demo.decode_utf8 Demo.ResultPage
                  Demo.parse_page Demo.parse_page Demo.parse_page
                  Demo.parse_page Demo.parse_page "cafe" "en" "all"
                  (PFloat "48.85") (PFloat "2.35") (PInt 500) 1 10 []
                  Demo.world c) as [H|H]
  end.
  - vm_compute. left. reflexivity.
  - exact (False_ind _ H).
  - exact H.
Defined.


Local Abbreviation demo_videos_search :=
  (@videos_search Demo.Request_raises Demo.urlopen Demo.gzip_decompress Demo.decode_utf8
     Demo.ResultPage Demo.parse_page Demo.parse_page Demo.parse_page
     Demo.parse_page Demo.parse_page).

Lemma videos_search_sends_its_filters_witness :
  exists call,
    hd_error (wire (snd (demo_videos_search "cats" "en" "all" "moderate"
                           "long" "fortnight" 1 10 [] Demo.world)))
    = Some call
    /\ exists form,
         call_form call = Some form
         /\ call_url call = SEARCH_URL
         /\ Dict.get "cat" form = Some (PStr "video")
         /\ Dict.get "duration" form = Some (PStr "l")
         /\ Dict.get "with_date" form = Some (PStr "fortnight").
Proof.
  eexists. split; [vm_compute; reflexivity|].
  match goal with
  | |- exists form, call_form ?c = _ /\ _ =>
      destruct (@videos_search_sends_its_filters Demo.Request_raises Demo.urlopen
                  Demo.gzip_decompress Demo.decode_utf8 Demo.ResultPage
                  Demo.parse_page Demo.parse_page Demo.parse_page
                  Demo.parse_page Demo.parse_page "cats" "en" "all"
                  "moderate" "long" "fortnight" 1 10 [] Demo.world c)
        as [H|H]
  end.
  - intros k [<-|[<-|[<-|[]]]]; reflexivity.
  - vm_compute. left. reflexivity.
  - exact (False_ind _ H).
  - exact H.
Defined.
